(** * Blacklisted mock API server: a shallow embedding and its contract

    The repository holds two Express applications: [src/server.js] (rate
    limiting and Swagger documentation) and a second file without them.
    Both register the same three handlers and the same error handler.

    The development is organised as follows.
    - [Js]: the JavaScript values that cross the handlers (query values,
      JSON, errors), [Date.prototype.toISOString] and the validity check
      of [decodeURIComponent].
    - [Http]: requests, responses, the process state, the clock and the
      router of Express.
    - [RateLimit]: the behaviour of the [express-rate-limit] middleware.
    - [Server]: the handlers and the two middleware stacks.
    - the contract, one theorem per property.

    A request is what the layers read of it: method, path, parsed query,
    what [express.json()] makes of the body, and the client address.
    Request and response headers are not modelled. A response to HEAD is
    the one GET would get; the HTTP layer then leaves its body out. *)

From Stdlib Require Import ZArith NArith QArith Bool Ascii String Lia.
From stdpp Require Import base option list strings gmap.

Set Warnings "-register-all".

Local Open Scope Z_scope.

(** Division and remainder by literals are left to [lia]. *)
Ltac Zify.zify_post_hook ::= Z.to_euclidean_division_equations.

(** ** JavaScript values *)

Module Js.

(** What [res.json] serialises. Numbers are exact rationals: the counts
    of the API are integers and [process.uptime()] is a quotient of an
    integer number of nanoseconds. *)
Inductive Json : Type :=
  | JNull
  | JBool (b : bool)
  | JNum (q : Q)
  | JStr (s : string)
  | JArr (items : list Json)
  | JObj (fields : list (string * Json)).

(** A member of [req.query]: the query parser yields a string, or an
    array when the key is repeated, or an object for bracketed keys. *)
Inductive QVal : Type :=
  | QStr (s : string)
  | QArr (items : list QVal)
  | QObj (fields : list (string * QVal)).

Fixpoint json_of_qval (v : QVal) : Json :=
  match v with
  | QStr s => JStr s
  | QArr items => JArr (List.map json_of_qval items)
  | QObj fields =>
      JObj (List.map (fun kv => (fst kv, json_of_qval (snd kv))) fields)
  end.

(** JavaScript truthiness of a possibly absent query member: [undefined]
    and the empty string are falsy, arrays and objects are truthy. *)
Definition truthy (v : option QVal) : bool :=
  match v with
  | None => false
  | Some (QStr s) => negb (String.eqb s "")
  | Some _ => true
  end.

(** An [Error] object: the two members the error handler reads. *)
Record JsError : Type := mkError {
  err_message : string;
  err_stack : string
}.

(** The result of evaluating an expression that may throw. *)
Inductive Result (A : Type) : Type :=
  | Ok (a : A)
  | Thrown (e : JsError).
Arguments Ok {A} a.
Arguments Thrown {A} e.

(** [Array.prototype.some]: the callback runs on the elements in order
    until one answers [true]; an exception of the callback leaves the
    loop. On the empty array the callback never runs. *)
Fixpoint some {A : Type} (cb : A -> Result bool) (arr : list A) : Result bool :=
  match arr with
  | [] => Ok false
  | x :: rest =>
      match cb x with
      | Thrown e => Thrown e
      | Ok true => Ok true
      | Ok false => some cb rest
      end
  end.

(** *** [Date.prototype.toISOString]

    A time value is a number of milliseconds since the epoch, in UTC,
    at most 8.64e15 in absolute value: [Date.now()] returns one. The
    components of a time value are those of ECMA-262 (Day, DayFromYear,
    YearFromTime, MonthFromTime, DateFromTime, ...), in the proleptic
    Gregorian calendar. *)

Definition maxTime : Z := 8640000000000000.

Record TimeValue : Type := mkTime {
  ms : Z;
  ms_in_range : (Z.abs ms <=? maxTime) = true
}.

Definition msPerDay : Z := 86400000.

Definition Day (t : Z) : Z := t / msPerDay.

Definition DayFromYear (y : Z) : Z :=
  365 * (y - 1970) + (y - 1969) / 4 - (y - 1901) / 100 + (y - 1601) / 400.

Definition is_leap (y : Z) : bool :=
  ((y mod 4 =? 0) && negb (y mod 100 =? 0)) || (y mod 400 =? 0).

(** The year whose first day is the last one not after the day of [t]:
    an estimate from the mean length of a year, off by one at most. *)
Definition YearFromTime (t : Z) : Z :=
  let y := 1970 + (400 * Day t) / 146097 in
  if Day t <? DayFromYear y then y - 1
  else if DayFromYear (y + 1) <=? Day t then y + 1
  else y.

Definition InLeapYear (t : Z) : Z :=
  if is_leap (YearFromTime t) then 1 else 0.

Definition DayWithinYear (t : Z) : Z := Day t - DayFromYear (YearFromTime t).

(** Months count from 0. *)
Definition MonthFromTime (t : Z) : Z :=
  let d := DayWithinYear t in
  let l := InLeapYear t in
  if d <? 31 then 0
  else if d <? 59 + l then 1
  else if d <? 90 + l then 2
  else if d <? 120 + l then 3
  else if d <? 151 + l then 4
  else if d <? 181 + l then 5
  else if d <? 212 + l then 6
  else if d <? 243 + l then 7
  else if d <? 273 + l then 8
  else if d <? 304 + l then 9
  else if d <? 334 + l then 10
  else 11.

Definition DateFromTime (t : Z) : Z :=
  let d := DayWithinYear t in
  let l := InLeapYear t in
  match MonthFromTime t with
  | 0 => d + 1
  | 1 => d - 30
  | 2 => d - 58 - l
  | 3 => d - 89 - l
  | 4 => d - 119 - l
  | 5 => d - 150 - l
  | 6 => d - 180 - l
  | 7 => d - 211 - l
  | 8 => d - 242 - l
  | 9 => d - 272 - l
  | 10 => d - 303 - l
  | _ => d - 333 - l
  end.

Definition HourFromTime (t : Z) : Z := (t / 3600000) mod 24.
Definition MinFromTime (t : Z) : Z := (t / 60000) mod 60.
Definition SecFromTime (t : Z) : Z := (t / 1000) mod 60.
Definition msFromTime (t : Z) : Z := t mod 1000.

Definition digit (n : Z) : ascii := ascii_of_nat (48 + Z.to_nat (n mod 10)).

(** [n] written with exactly [w] decimal digits. *)
Fixpoint pad (w : nat) (n : Z) : string :=
  match w with
  | O => EmptyString
  | S w' => pad w' (n / 10) +:+ String (digit n) EmptyString
  end.

(** Years outside 0..9999 take the expanded form of six digits and a sign. *)
Definition year_string (y : Z) : string :=
  if (0 <=? y) && (y <=? 9999) then pad 4 y
  else (if y <? 0 then "-" else "+") +:+ pad 6 (Z.abs y).

Definition toISOString (t : Z) : string :=
  year_string (YearFromTime t) +:+ "-" +:+ pad 2 (MonthFromTime t + 1)
    +:+ "-" +:+ pad 2 (DateFromTime t) +:+ "T" +:+ pad 2 (HourFromTime t)
    +:+ ":" +:+ pad 2 (MinFromTime t) +:+ ":" +:+ pad 2 (SecFromTime t)
    +:+ "." +:+ pad 3 (msFromTime t) +:+ "Z".

(** What [toISOString] writes after the year. *)
Definition after_year (t : Z) : list ascii :=
  let m := MonthFromTime t + 1 in
  let d := DateFromTime t in
  ["-"; digit (m / 10); digit m; "-"; digit (d / 10); digit d; "T";
   digit (HourFromTime t / 10); digit (HourFromTime t); ":";
   digit (MinFromTime t / 10); digit (MinFromTime t); ":";
   digit (SecFromTime t / 10); digit (SecFromTime t); ".";
   digit (msFromTime t / 10 / 10); digit (msFromTime t / 10);
   digit (msFromTime t); "Z"]%char.

(** *** What counts as an ISO-8601 UTC instant with milliseconds

    The reader follows the format [YYYY-MM-DDTHH:mm:ss.sssZ], and
    [+YYYYYY-...] or [-YYYYYY-...] for the years that four digits do not
    hold: the separators in place, decimal digits elsewhere, every
    component in the range of the calendar and of the clock. It returns
    the instant that the text denotes, in milliseconds since the epoch. *)

Definition digit_value (c : ascii) : option Z :=
  let n := Z.of_nat (nat_of_ascii c) in
  if (48 <=? n) && (n <=? 57) then Some (n - 48) else None.

Fixpoint number (cs : list ascii) (acc : Z) : option Z :=
  match cs with
  | [] => Some acc
  | c :: rest =>
      match digit_value c with
      | Some v => number rest (10 * acc + v)
      | None => None
      end
  end.

Definition days_in_month (y m : Z) : Z :=
  if m =? 2 then (if is_leap y then 29 else 28)
  else if (m =? 4) || (m =? 6) || (m =? 9) || (m =? 11) then 30
  else 31.

(** The days of a year that precede the first of month [m] (1 to 12). *)
Definition days_before_month (y m : Z) : Z :=
  let l := if is_leap y then 1 else 0 in
  match m with
  | 1 => 0
  | 2 => 31
  | 3 => 59 + l
  | 4 => 90 + l
  | 5 => 120 + l
  | 6 => 151 + l
  | 7 => 181 + l
  | 8 => 212 + l
  | 9 => 243 + l
  | 10 => 273 + l
  | 11 => 304 + l
  | _ => 334 + l
  end.

(** A decimal field whose value lies within [lo, hi]. *)
Definition field (lo hi : Z) (cs : list ascii) : option Z :=
  match number cs 0 with
  | Some n => if (lo <=? n) && (n <=? hi) then Some n else None
  | None => None
  end.

(** What follows the year, [-MM-DDTHH:mm:ss.sssZ], read in year [y]. *)
Definition instant_in_year (y : Z) (cs : list ascii) : option Z :=
  match cs with
  | [s1; m1; m2; s2; d1; d2; s3; h1; h2; s4; n1; n2; s5; c1; c2; s6;
     f1; f2; f3; s7] =>
      if Ascii.eqb s1 "-" && Ascii.eqb s2 "-" && Ascii.eqb s3 "T"
         && Ascii.eqb s4 ":" && Ascii.eqb s5 ":" && Ascii.eqb s6 "."
         && Ascii.eqb s7 "Z"
      then
        match field 1 12 [m1; m2] with
        | Some m =>
            match field 1 (days_in_month y m) [d1; d2], field 0 23 [h1; h2],
                  field 0 59 [n1; n2], field 0 59 [c1; c2],
                  field 0 999 [f1; f2; f3] with
            | Some d, Some h, Some n, Some c, Some f =>
                Some ((DayFromYear y + days_before_month y m + d - 1) * msPerDay
                      + h * 3600000 + n * 60000 + c * 1000 + f)
            | _, _, _, _, _ => None
            end
        | None => None
        end
      else None
  | _ => None
  end.

Definition instant_of_iso8601 (s : string) : option Z :=
  match list_ascii_of_string s with
  | sign :: y1 :: y2 :: y3 :: rest =>
      if Ascii.eqb sign "+" || Ascii.eqb sign "-" then
        match rest with
        | y4 :: y5 :: y6 :: rest' =>
            match number [y1; y2; y3; y4; y5; y6] 0 with
            | Some y =>
                if Ascii.eqb sign "+" then instant_in_year y rest'
                else if y =? 0 then None
                else instant_in_year (- y) rest'
            | None => None
            end
        | _ => None
        end
      else
        match number [sign; y1; y2; y3] 0 with
        | Some y => instant_in_year y rest
        | None => None
        end
  | _ => None
  end.

Definition is_iso8601_utc_ms (s : string) : bool :=
  match instant_of_iso8601 s with
  | Some _ => true
  | None => false
  end.

(** *** [decodeURIComponent]

    Whether [decodeURIComponent] returns or throws a [URIError]
    (ECMA-262, Decode): every [%] starts an escape of two hexadecimal
    digits, and the octets of the escapes that are not ASCII form
    well-formed UTF-8 sequences, each octet of them escaped. *)

Definition hex_value (c : ascii) : option Z :=
  let n := Z.of_nat (nat_of_ascii c) in
  if (48 <=? n) && (n <=? 57) then Some (n - 48)
  else if (65 <=? n) && (n <=? 70) then Some (n - 55)
  else if (97 <=? n) && (n <=? 102) then Some (n - 87)
  else None.

(** The octet of the escape at the head of [cs], and what follows it. *)
Definition escaped_octet (cs : list ascii) : option (Z * list ascii) :=
  match cs with
  | c :: h :: l :: rest =>
      if Ascii.eqb c "%" then
        match hex_value h, hex_value l with
        | Some a, Some b => Some (16 * a + b, rest)
        | _, _ => None
        end
      else None
  | _ => None
  end.

(** [n] further escaped octets of a sequence: the first within [lo, hi],
    the others within 80..BF. *)
Fixpoint continuation (n : nat) (lo hi : Z) (cs : list ascii)
    : option (list ascii) :=
  match n with
  | O => Some cs
  | S n' =>
      match escaped_octet cs with
      | Some (b, rest) =>
          if (lo <=? b) && (b <=? hi) then continuation n' 128 191 rest
          else None
      | None => None
      end
  end.

(** The first octet of a UTF-8 sequence of more than one octet: how many
    octets follow, and the range of the second one. *)
Definition utf8_lead (b : Z) : option (nat * Z * Z) :=
  if (194 <=? b) && (b <=? 223) then Some (1%nat, 128, 191)
  else if b =? 224 then Some (2%nat, 160, 191)
  else if (225 <=? b) && (b <=? 236) then Some (2%nat, 128, 191)
  else if b =? 237 then Some (2%nat, 128, 159)
  else if (238 <=? b) && (b <=? 239) then Some (2%nat, 128, 191)
  else if b =? 240 then Some (3%nat, 144, 191)
  else if (241 <=? b) && (b <=? 243) then Some (3%nat, 128, 191)
  else if b =? 244 then Some (3%nat, 128, 143)
  else None.

(** Each step consumes a character at least, so as many steps as there
    are characters reach the end of the text. *)
Fixpoint decodes_from (steps : nat) (cs : list ascii) : bool :=
  match cs, steps with
  | [], _ => true
  | _ :: _, O => false
  | c :: rest, S steps' =>
      if Ascii.eqb c "%" then
        match escaped_octet cs with
        | Some (b, rest') =>
            if b <? 128 then decodes_from steps' rest'
            else
              match utf8_lead b with
              | Some (n, lo, hi) =>
                  match continuation n lo hi rest' with
                  | Some rest'' => decodes_from steps' rest''
                  | None => false
                  end
              | None => false
              end
        | None => false
        end
      else decodes_from steps' rest
  end.

Definition uri_decodes (s : string) : bool :=
  let cs := list_ascii_of_string s in
  decodes_from (length cs) cs.

(** No character of [cs] starts an escape. *)
Definition no_escape (cs : list ascii) : bool :=
  forallb (fun c => negb (Ascii.eqb c "%")) cs.

End Js.

(** ** Requests, responses and the process *)

Module Http.
Import Js.

Inductive Method : Type := GET | HEAD | POST | PUT | PATCH | DELETE | OPTIONS.

(** A route registered with [app.get] answers GET, and HEAD as well when
    no HEAD route is registered. *)
Definition handled_by_get (m : Method) : bool :=
  match m with
  | GET | HEAD => true
  | _ => false
  end.

(** What [express.json()] makes of the body of a request: there is
    nothing for it to parse (no body, or a content type other than
    JSON), or the body parses to a value, or the parser fails with an
    error (a [SyntaxError] for text that is not JSON, and the errors for
    a body that is too large or in an unsupported encoding). *)
Inductive Body : Type :=
  | NoBody
  | Parsed (j : Json)
  | Unparsable (e : JsError).

(** What the layers read of a request: the method, [req.path] (the URL
    up to the query string), [req.query], the body and [req.ip]. *)
Record Request : Type := mkRequest {
  req_method : Method;
  req_path : string;
  req_query : list (string * QVal);
  req_body : Body;
  req_ip : string
}.

(** [req.query.name], [None] standing for [undefined]. *)
Fixpoint query_get (k : string) (q : list (string * QVal)) : option QVal :=
  match q with
  | [] => None
  | (k', v) :: rest => if String.eqb k k' then Some v else query_get k rest
  end.

Inductive Content : Type :=
  | AsJson (j : Json)
  | AsText (s : string).

Record Response : Type := mkResponse {
  status : Z;
  body : Content
}.

(** The clocks at the moment a request is handled: the time value that
    [Date.now()] returns, and the monotonic clock behind
    [process.uptime()] in nanoseconds since the process started. *)
Record Env : Type := mkEnv {
  clock : TimeValue;
  uptime_ns : N
}.

(** [Date.now()]: milliseconds since the epoch. *)
Definition now (env : Env) : Z := ms (clock env).

(** [process.uptime()]: seconds since the start of the process. *)
Definition uptime (env : Env) : Q := Z.of_N (uptime_ns env) # 1000000000.

(** The process: the array bound to [blacklistedNames], the hit counters
    of the two limiters keyed by client address (hits in the current
    window, end of the window), and what [console.error] has printed. *)
Record State : Type := mkState {
  blacklistedNames : list string;
  generalHits : gmap string (nat * Z);
  blacklistHits : gmap string (nat * Z);
  console : list string
}.

Definition set_generalHits (h : gmap string (nat * Z)) (st : State) : State :=
  mkState (blacklistedNames st) h (blacklistHits st) (console st).

Definition set_blacklistHits (h : gmap string (nat * Z)) (st : State) : State :=
  mkState (blacklistedNames st) (generalHits st) h (console st).

Definition console_error (line : string) (st : State) : State :=
  mkState (blacklistedNames st) (generalHits st) (blacklistHits st)
          (console st ++ [line]).

(** What a middleware does with a request: it sends the response, or
    calls [next()], or fails: it throws, or hands an error to [next]. *)
Inductive Outcome : Type :=
  | Sent (r : Response)
  | Next
  | Raise (e : JsError).

Definition Middleware : Type := State -> Env -> Request -> Outcome * State.

(** What the engine and the documentation packages contribute:
    [String.prototype.toLowerCase] (the case tables are the engine's),
    the call-site lines the engine appends to the stack of an error
    thrown in a handler and of one thrown in the router, the document
    built by [swagger-jsdoc] and the responses of the
    [swagger-ui-express] viewer. *)
Class Runtime : Type := mkRuntime {
  toLowerCase : string -> string;
  stackFrames : string;
  routerFrames : string;
  swaggerSpec : Json;
  swaggerUi : Method -> string -> Response
}.

(** *** Path matching of Express

    Routing is case-insensitive and not strict by default: a route path
    matches with or without one trailing slash, a mount path matches as
    a prefix that ends on a segment boundary. The registered paths are
    all in lower case, so the request path is lowered before the
    comparison. *)

Definition lower_char (c : ascii) : ascii :=
  let n := nat_of_ascii c in
  if ((65 <=? n) && (n <=? 90))%nat then ascii_of_nat (n + 32) else c.

Fixpoint lower (s : string) : string :=
  match s with
  | EmptyString => EmptyString
  | String c rest => String (lower_char c) (lower rest)
  end.

Definition route_matches (pattern path : string) : bool :=
  String.eqb (lower path) pattern || String.eqb (lower path) (pattern +:+ "/").

Inductive Mount : Type :=
  | Root                      (* app.use(fn) *)
  | Star                      (* app.use('*', fn) *)
  | Under (prefix : string).  (* app.use('/prefix', fn) *)

Definition mount_matches (m : Mount) (path : string) : bool :=
  match m with
  | Root | Star => true
  | Under p =>
      String.eqb (lower path) p || String.prefix (p +:+ "/") (lower path)
  end.

(** *** The router

    The layers of an application in registration order. *)
Inductive Layer : Type :=
  | Use (m : Mount) (chain : list Middleware)
  | Get (path : string) (chain : list Middleware)
  | UseError (h : JsError -> Middleware).

(** The functions of one layer run in order while they call [next()]. *)
Fixpoint run_chain (chain : list Middleware) (st : State) (env : Env)
    (req : Request) : Outcome * State :=
  match chain with
  | [] => (Next, st)
  | f :: rest =>
      match f st env req with
      | (Next, st') => run_chain rest st' env req
      | done => done
      end
  end.

Section Router.
Context {rt : Runtime}.

(** The [URIError] of [decodeURIComponent], with the message that Express
    gives it. The stack keeps the text it had when the engine made it. *)
Definition URIError (val : string) : JsError :=
  mkError ("Failed to decode param '" +:+ val +:+ "'")
          ("URIError: URI malformed" +:+ routerFrames).

(** [decode_param] of Express: [None] when the value decodes. *)
Definition decode_param (val : string) : option JsError :=
  if uri_decodes val then None else Some (URIError val).

(** A layer mounted on ['*'] captures the path it matches as a parameter
    and decodes it; the match fails with the error of the decoder. The
    other paths registered here capture nothing. *)
Definition match_error (m : Mount) (path : string) : option JsError :=
  match m with
  | Star => decode_param path
  | Root | Under _ => None
  end.

(** The router walks the stack. Without a pending error it runs the
    layers that match and skips the error handlers; a layer whose match
    fails leaves its error pending. With a pending error the router
    skips everything but the error handlers, and the error stays the one
    that came first. [None] means that the stack is exhausted and no
    layer has answered. *)
Fixpoint route (stack : list Layer) (pending : option JsError) (st : State)
    (env : Env) (req : Request) : option Response * State :=
  match stack with
  | [] => (None, st)
  | layer :: rest =>
      let continue (o : Outcome * State) :=
        match o with
        | (Sent r, st') => (Some r, st')
        | (Next, st') => route rest None st' env req
        | (Raise e, st') => route rest (Some e) st' env req
        end in
      match pending, layer with
      | None, Use m chain =>
          match match_error m (req_path req) with
          | Some e => route rest (Some e) st env req
          | None =>
              if mount_matches m (req_path req)
              then continue (run_chain chain st env req)
              else route rest None st env req
          end
      | None, Get path chain =>
          if handled_by_get (req_method req) && route_matches path (req_path req)
          then continue (run_chain chain st env req)
          else route rest None st env req
      | None, UseError _ => route rest None st env req
      | Some e, UseError h => continue (h e st env req)
      | Some e, _ => route rest (Some e) st env req
      end
  end.

End Router.
End Http.

(** ** The rate limiter *)

Module RateLimit.
Import Js Http.

(** Modelled from the spec: [express-rate-limit] is a package the
    repository configures and does not contain. Each client address has
    a hit counter over a fixed window of [windowMs] milliseconds; a
    request that raises the counter above [max] is answered 429 with the
    configured message, any other goes on to the next middleware. *)
Record Limiter : Type := mkLimiter {
  windowMs : Z;
  max : nat;
  message : Json
}.

(** The counter of [key] after one more hit at time [t]. *)
Definition hit (l : Limiter) (store : gmap string (nat * Z)) (key : string)
    (t : Z) : nat * Z :=
  match store !! key with
  | Some (n, reset) =>
      if t <? reset then (S n, reset) else (1%nat, t + windowMs l)
  | None => (1%nat, t + windowMs l)
  end.

Definition exceeded (l : Limiter) (store : gmap string (nat * Z))
    (key : string) (t : Z) : bool :=
  (max l <? fst (hit l store key t))%nat.

Definition rateLimit (l : Limiter) (get : State -> gmap string (nat * Z))
    (set : gmap string (nat * Z) -> State -> State) : Middleware :=
  fun st env req =>
    let counter := hit l (get st) (req_ip req) (now env) in
    let st' := set (<[req_ip req := counter]> (get st)) st in
    if exceeded l (get st) (req_ip req) (now env)
    then (Sent (mkResponse 429 (AsJson (message l))), st')
    else (Next, st').

End RateLimit.

(** ** The server *)

Module Server.
Import Js Http RateLimit.

(** A runtime to evaluate with. Lower-casing of the ASCII letters is what
    [toLowerCase] does on ASCII strings. The viewer answers as
    [swagger-ui-express] does on its mount path: a GET or HEAD of the
    path without the trailing slash is redirected to the path with it,
    anything else gets the page. *)
Definition ascii_runtime : Runtime :=
  mkRuntime lower "" "" (JObj [("openapi", JStr "3.0.0")])
    (fun m path =>
       if handled_by_get m && String.eqb (lower path) "/api-docs"
       then mkResponse 301 (AsText "Redirecting to /api-docs/")
       else mkResponse 200 (AsText "Swagger UI")).

Section Handlers.
Context {rt : Runtime}.

(** [src/server.js], lines 9-18. *)
Definition generalLimiter : Limiter :=
  mkLimiter (15 * 60 * 1000) 100
    (JObj [("error", JStr "Too many requests from this IP");
           ("retryAfter", JStr "15 minutes")]).

(** [src/server.js], lines 21-30. *)
Definition blacklistLimiter : Limiter :=
  mkLimiter (1 * 60 * 1000) 20
    (JObj [("error", JStr "Too many blacklist requests from this IP");
           ("retryAfter", JStr "1 minute")]).

(** The array literal bound to [blacklistedNames]. *)
Definition configured_names : list string :=
  ["John Smith"; "Jane Doe"; "Mike Johnson"; "Sarah Wilson"; "Robert Brown";
   "Emily Davis"; "David Miller"; "Lisa Garcia"; "James Rodriguez";
   "Maria Martinez"].

Definition init : State := mkState configured_names ∅ ∅ [].

(** [express.json()]: a body that does not parse is handed to [next] as
    an error; otherwise the request goes on (the parsed body is stored in
    [req.body], which no handler reads). *)
Definition express_json : Middleware :=
  fun st _ req =>
    match req_body req with
    | Unparsable e => (Raise e, st)
    | NoBody | Parsed _ => (Next, st)
    end.

Definition generalLimiter_mw : Middleware :=
  rateLimit generalLimiter generalHits set_generalHits.

Definition blacklistLimiter_mw : Middleware :=
  rateLimit blacklistLimiter blacklistHits set_blacklistHits.

(** [app.use('/api-docs', swaggerUi.serve, swaggerUi.setup(swaggerSpec))] *)
Definition api_docs : Middleware :=
  fun st _ req => (Sent (swaggerUi (req_method req) (req_path req)), st).

(** [app.get('/api-docs.json', ...)] *)
Definition api_docs_json : Middleware :=
  fun st _ _ => (Sent (mkResponse 200 (AsJson swaggerSpec)), st).

(** [app.get('/health', ...)] *)
Definition health : Middleware :=
  fun st env _ =>
    (Sent (mkResponse 200 (AsJson (JObj
       [("status", JStr "healthy");
        ("timestamp", JStr (toISOString (now env)));
        ("uptime", JNum (uptime env));
        ("service", JStr "blacklisted-mock-api-server")]))), st).

Definition TypeError (msg : string) : JsError :=
  mkError msg ("TypeError: " +:+ msg +:+ stackFrames).

(** [name.toLowerCase()]: only a string has the method. *)
Definition name_toLowerCase (name : option QVal) : Result string :=
  match name with
  | Some (QStr s) => Ok (toLowerCase s)
  | Some _ => Thrown (TypeError "name.toLowerCase is not a function")
  | None =>
      Thrown (TypeError
        "Cannot read properties of undefined (reading 'toLowerCase')")
  end.

(** The callback given to [some]. *)
Definition same_name (name : option QVal) (blacklistedName : string)
    : Result bool :=
  match name_toLowerCase name with
  | Ok lowered => Ok (String.eqb (toLowerCase blacklistedName) lowered)
  | Thrown e => Thrown e
  end.

Definition json_of_name (name : option QVal) : Json :=
  match name with
  | Some v => json_of_qval v
  | None => JNull
  end.

(** [app.get('/blacklisted', ...)] *)
Definition blacklisted : Middleware :=
  fun st _ req =>
    let name := query_get "name" (req_query req) in
    if negb (truthy name) then
      (Sent (mkResponse 200 (AsJson (JObj
         [("blacklistedNames", JArr (List.map JStr (blacklistedNames st)));
          ("count", JNum (inject_Z (Z.of_nat (length (blacklistedNames st)))))]))),
       st)
    else
      match some (same_name name) (blacklistedNames st) with
      | Ok isBlacklisted =>
          (Sent (mkResponse 200 (AsJson (JObj
             [("name", json_of_name name);
              ("isBlacklisted", JBool isBlacklisted)]))), st)
      | Thrown e => (Raise e, st)
      end.

(** [app.use('*', ...)]: the 404 handler. *)
Definition not_found : Middleware :=
  fun st _ _ =>
    (Sent (mkResponse 404 (AsJson (JObj
       [("error", JStr "Endpoint not found");
        ("availableEndpoints",
         JArr [JStr "GET /health"; JStr "GET /blacklisted";
               JStr "GET /blacklisted?name=<name>"])]))), st).

(** [app.use((err, req, res, next) => ...)]: the error handler. *)
Definition error_handler (err : JsError) : Middleware :=
  fun st _ _ =>
    (Sent (mkResponse 500 (AsJson (JObj
       [("error", JStr "Internal server error");
        ("message", JStr (err_message err))]))),
     console_error (err_stack err) st).

(** The two applications, layer by layer as the files register them. *)
Inductive Variant : Type :=
  | Minimal   (* the file without limiters and documentation *)
  | Full.     (* src/server.js *)

Definition app (v : Variant) : list Layer :=
  match v with
  | Minimal =>
      [Use Root [express_json];
       Get "/health" [health];
       Get "/blacklisted" [blacklisted];
       Use Star [not_found];
       UseError error_handler]
  | Full =>
      [Use Root [express_json];
       Use Root [generalLimiter_mw];
       Use (Under "/api-docs") [api_docs];
       Get "/api-docs.json" [api_docs_json];
       Get "/health" [health];
       Get "/blacklisted" [blacklistLimiter_mw; blacklisted];
       Use Star [not_found];
       UseError error_handler]
  end.

(** One request against the process. *)
Definition serve (v : Variant) (st : State) (env : Env) (req : Request)
    : option Response * State :=
  route (app v) None st env req.

(** A sequence of requests, each with the clock at its arrival. *)
Fixpoint run (v : Variant) (st : State) (trace : list (Env * Request))
    : list (option Response) * State :=
  match trace with
  | [] => ([], st)
  | (env, req) :: rest =>
      let '(r, st') := serve v st env req in
      let '(rs, st'') := run v st' rest in
      (r :: rs, st'')
  end.

(** The states of one process lifetime. *)
Inductive reachable (v : Variant) : State -> Prop :=
  | reachable_init : reachable v init
  | reachable_step st env req :
      reachable v st -> reachable v (snd (serve v st env req)).

(** *** Classes of requests *)

(** [express.json()] lets the request pass. *)
Definition body_parses (req : Request) : bool :=
  match req_body req with
  | Unparsable _ => false
  | NoBody | Parsed _ => true
  end.

(** The error with which [express.json()] refuses the body, if it does. *)
Definition body_fault (req : Request) : option JsError :=
  match req_body req with
  | Unparsable e => Some e
  | NoBody | Parsed _ => None
  end.

(** [decodeURIComponent] accepts the path. *)
Definition path_decodes (req : Request) : bool := uri_decodes (req_path req).

Definition is_health (req : Request) : bool :=
  handled_by_get (req_method req) && route_matches "/health" (req_path req).

Definition is_blacklisted (req : Request) : bool :=
  handled_by_get (req_method req) && route_matches "/blacklisted" (req_path req).

(** The documentation endpoints of [src/server.js]. *)
Definition is_documentation (req : Request) : bool :=
  mount_matches (Under "/api-docs") (req_path req)
  || (handled_by_get (req_method req)
      && route_matches "/api-docs.json" (req_path req)).

(** The counters of the limiters stand against the request. *)
Definition rate_limited (v : Variant) (st : State) (env : Env) (req : Request)
    : bool :=
  match v with
  | Minimal => false
  | Full =>
      exceeded generalLimiter (generalHits st) (req_ip req) (now env)
      || (is_blacklisted req
          && exceeded blacklistLimiter (blacklistHits st) (req_ip req) (now env))
  end.

(** A request that no route and no mounted path of the variant takes. *)
Definition unmatched (v : Variant) (req : Request) : bool :=
  negb (is_health req) && negb (is_blacklisted req)
  && match v with
     | Minimal => true
     | Full => negb (is_documentation req)
     end.

End Handlers.
End Server.

(** ** The core of the two applications

    What both stacks compute for a request that reaches the routes: the
    first of /health and /blacklisted that matches answers, otherwise the
    404 handler does; an error on the way (a body that does not parse, a
    path that does not decode, an exception of a handler) is answered by
    the error handler. The lemmas below relate [serve] to this outline. *)

Module Outline.
Import Js Http RateLimit Server.

(** The response of the error handler to a fault. *)
Definition internal_error (e : JsError) : Response :=
  mkResponse 500 (AsJson (JObj
    [("error", JStr "Internal server error");
     ("message", JStr (err_message e))])).

Section WithRuntime.
Context {rt : Runtime}.

Definition reply (o : Outcome * State) : option Response :=
  match fst o with
  | Sent r => Some r
  | Raise e => Some (internal_error e)
  | Next => None
  end.

(** What the routes make of a request that reaches them. *)
Definition routes (st : State) (env : Env) (req : Request) : option Response :=
  if is_health req then reply (health st env req)
  else if is_blacklisted req then reply (blacklisted st env req)
  else
    match decode_param (req_path req) with
    | Some e => Some (internal_error e)
    | None => reply (not_found st env req)
    end.

Definition answer (st : State) (env : Env) (req : Request) : option Response :=
  match req_body req with
  | Unparsable e => Some (internal_error e)
  | NoBody | Parsed _ => routes st env req
  end.

End WithRuntime.

Definition is_string (v : QVal) : bool :=
  match v with
  | QStr _ => true
  | _ => false
  end.


(** A middleware that leaves the blacklist of the process as it found it. *)
Definition keeps_blacklist (f : Middleware) : Prop :=
  forall st env req, blacklistedNames (snd (f st env req)) = blacklistedNames st.

Definition layer_keeps_blacklist (l : Layer) : Prop :=
  match l with
  | Use _ chain | Get _ chain => Forall keeps_blacklist chain
  | UseError h => forall e, keeps_blacklist (h e)
  end.

(** A middleware that prints nothing. *)
Definition keeps_console (f : Middleware) : Prop :=
  forall st env req, console (snd (f st env req)) = console st.

Section Logging.
Context {rt : Runtime}.

Definition quiet_layer (l : Layer) : Prop :=
  match l with
  | Use _ chain | Get _ chain => Forall keeps_console chain
  | UseError h => h = error_handler
  end.

(** What a walk of the stack does to the console: nothing, unless an
    error reaches the error handler, which prints its stack and answers. *)
Definition logged (pending : option JsError) (st : State)
    (result : option Response * State) : Prop :=
  match pending with
  | None =>
      console (snd result) = console st
      \/ exists e, fst result = Some (internal_error e)
                   /\ console (snd result) = console st ++ [err_stack e]
  | Some e =>
      (fst result = None /\ console (snd result) = console st)
      \/ (fst result = Some (internal_error e)
          /\ console (snd result) = console st ++ [err_stack e])
  end.

End Logging.

End Outline.

(** ** Scenarios to evaluate *)

Module Scenario.
Import Js Http RateLimit Server.

Definition client : string := "203.0.113.7".

(** The time value [t], and the epoch when [t] is out of range. *)
Definition time_value (t : Z) : TimeValue :=
  match Z.abs t <=? maxTime as b return (Z.abs t <=? maxTime) = b -> TimeValue with
  | true => fun H => mkTime t H
  | false => fun _ => mkTime 0 eq_refl
  end eq_refl.

Definition at_time (t : Z) (up : N) : Env := mkEnv (time_value t) up.

(** 2025-11-19T06:47:29.824Z, two minutes after the start of the process. *)
Definition morning : Env := at_time 1763534849824 120500000000.

Definition a_second_later (env : Env) : Env :=
  at_time (now env + 1000) (uptime_ns env + 1000000000).

(** [n] copies of a request, one second apart. *)
Fixpoint burst (n : nat) (env : Env) (req : Request) : list (Env * Request) :=
  match n with
  | O => []
  | S k => (env, req) :: burst k (a_second_later env) req
  end.

Definition after_burst (n : nat) (env : Env) : Env :=
  Nat.iter n a_second_later env.

(** A GET without a body. *)
Definition get (path : string) (query : list (string * QVal)) : Request :=
  mkRequest GET path query NoBody client.

(** What [express.json()] raises on the body [{bad]. *)
Definition bad_json : JsError :=
  mkError "Unexpected token b in JSON at position 1"
          "SyntaxError: Unexpected token b in JSON at position 1".

(** The same request with a body that is not JSON. *)
Definition with_bad_body (req : Request) : Request :=
  mkRequest (req_method req) (req_path req) (req_query req)
            (Unparsable bad_json) (req_ip req).

End Scenario.

(** ** What a request shows and how the limiters keep count *)

Module Traffic.
Import Js Http RateLimit Server.

(** Two requests that the layers of both stacks cannot tell apart: the
    same method, path and client address, bodies that [express.json()]
    treats alike (it accepts both, or refuses both with the same error),
    and the same [name] member of the query, whatever else the query
    holds. *)
Definition same_view (req1 req2 : Request) : Prop :=
  req_method req1 = req_method req2
  /\ req_path req1 = req_path req2
  /\ body_fault req1 = body_fault req2
  /\ req_ip req1 = req_ip req2
  /\ query_get "name" (req_query req1) = query_get "name" (req_query req2).

Definition reads_view (f : Middleware) : Prop :=
  forall st env req1 req2, same_view req1 req2 -> f st env req1 = f st env req2.

Definition layer_reads_view (l : Layer) : Prop :=
  match l with
  | Use _ chain | Get _ chain => Forall reads_view chain
  | UseError h => forall e, reads_view (h e)
  end.


(** The address has no open window at time [t]: no counter, or one whose
    window has ended. *)
Definition closed_at (t : Z) (store : gmap string (nat * Z)) (ip : string)
    : Prop :=
  forall n reset, store !! ip = Some (n, reset) -> reset <= t.

(** Over a stretch of [len] milliseconds from [t1], the window of the
    address is one that ended before the stretch or one that outlasts
    it. *)
Definition settled (len t1 : Z) (store : gmap string (nat * Z)) (ip : string)
    : Prop :=
  forall n reset, store !! ip = Some (n, reset) ->
                  reset <= t1 \/ t1 + len <= reset.

(** The hits of the address in the window that outlasts the stretch. *)
Definition hits_since (len t1 : Z) (store : gmap string (nat * Z)) (ip : string)
    : nat :=
  match store !! ip with
  | Some (n, reset) => if t1 + len <=? reset then n else O
  | None => O
  end.

Section WithRuntime.
Context {rt : Runtime}.

(** The requests of a sequence that the general limiter counts for an
    address: those of the address that [express.json()] lets pass. *)
Definition counted_by_general (ip : string) (x : Env * Request) : bool :=
  String.eqb (req_ip (snd x)) ip && body_parses (snd x).

(** Among them, those for /blacklisted. *)
Definition counted_by_route (ip : string) (x : Env * Request) : bool :=
  counted_by_general ip x && is_blacklisted (snd x).

(** No window of the process ends later than its length after [t]. *)
Definition windows_end_by (t : Z) (st : State) : Prop :=
  forall ip n reset,
    (generalHits st !! ip = Some (n, reset) ->
     reset <= t + windowMs generalLimiter)
    /\ (blacklistHits st !! ip = Some (n, reset) ->
        reset <= t + windowMs blacklistLimiter).

End WithRuntime.
End Traffic.

(** ** The calendar and the format of a timestamp *)

Module DateFacts.
Import Js.

Lemma year_bracket t :
  DayFromYear (YearFromTime t) <= Day t < DayFromYear (YearFromTime t + 1).
Proof.
  unfold YearFromTime.
  set (d := Day t). clearbody d.
  set (y := 1970 + 400 * d / 146097).
  assert (Hlo : DayFromYear (y - 1) <= d) by (unfold DayFromYear, y; lia).
  assert (Hhi : d < DayFromYear (y + 2)) by (unfold DayFromYear, y; lia).
  destruct (Z.ltb_spec d (DayFromYear y)).
  - replace (y - 1 + 1) with y by lia. lia.
  - destruct (Z.leb_spec (DayFromYear (y + 1)) d).
    + replace (y + 1 + 1) with (y + 2) by lia. lia.
    + lia.
Qed.

Lemma days_in_year y :
  DayFromYear (y + 1) - DayFromYear y = if is_leap y then 366 else 365.
Proof.
  unfold DayFromYear, is_leap.
  destruct (Z.eqb_spec (y mod 4) 0), (Z.eqb_spec (y mod 100) 0),
    (Z.eqb_spec (y mod 400) 0); simpl; lia.
Qed.

Lemma day_within_year t :
  0 <= DayWithinYear t < 365 + InLeapYear t.
Proof.
  unfold DayWithinYear, InLeapYear.
  pose proof (year_bracket t). pose proof (days_in_year (YearFromTime t)).
  destruct (is_leap (YearFromTime t)); lia.
Qed.

(** The month and the day of the month are those of the calendar, and
    they locate the day within its year. *)
Lemma date_in_month t :
  0 <= MonthFromTime t <= 11
  /\ 1 <= DateFromTime t <= days_in_month (YearFromTime t) (MonthFromTime t + 1)
  /\ days_before_month (YearFromTime t) (MonthFromTime t + 1) + DateFromTime t - 1
     = DayWithinYear t.
Proof.
  pose proof (day_within_year t) as Hd.
  unfold DateFromTime, MonthFromTime, days_in_month, days_before_month.
  unfold InLeapYear in *.
  set (d := DayWithinYear t) in *. clearbody d.
  destruct (is_leap (YearFromTime t));
  repeat (match goal with
          | |- context [?a <? ?b] => destruct (Z.ltb_spec a b)
          end; simpl; try lia).
Qed.

(** The components of a time value put together give it back. *)
Lemma time_of_day t :
  Day t * msPerDay + HourFromTime t * 3600000 + MinFromTime t * 60000
  + SecFromTime t * 1000 + msFromTime t = t.
Proof.
  unfold Day, msPerDay, HourFromTime, MinFromTime, SecFromTime, msFromTime.
  lia.
Qed.

(** The years of the time values. *)
Lemma year_in_range t :
  Z.abs t <= maxTime -> -271821 <= YearFromTime t <= 275760.
Proof.
  intros Ht. pose proof (year_bracket t) as Hb.
  assert (Hday : -100000000 <= Day t <= 100000000)
    by (unfold Day, msPerDay, maxTime in *; lia).
  set (y := YearFromTime t) in *. clearbody y.
  unfold DayFromYear in Hb. lia.
Qed.

Lemma digit_value_digit n : digit_value (digit n) = Some (n mod 10).
Proof.
  unfold digit_value, digit.
  rewrite nat_ascii_embedding by lia.
  destruct (Z.leb_spec 48 (Z.of_nat (48 + Z.to_nat (n mod 10)))),
    (Z.leb_spec (Z.of_nat (48 + Z.to_nat (n mod 10))) 57); simpl; try lia.
  f_equal. lia.
Qed.

(** A digit is no sign. *)
Lemma digit_not_sign n :
  Ascii.eqb (digit n) "+" || Ascii.eqb (digit n) "-" = false.
Proof.
  pose proof (digit_value_digit n) as H.
  apply orb_false_intro; apply Ascii.eqb_neq; intros E; rewrite E in H;
    discriminate.
Qed.

Lemma number_pad2 n : 0 <= n < 100 -> number [digit (n / 10); digit n] 0 = Some n.
Proof.
  intros Hn. cbn [number]. rewrite !digit_value_digit. f_equal. lia.
Qed.

Lemma number_pad3 n :
  0 <= n < 1000 -> number [digit (n / 10 / 10); digit (n / 10); digit n] 0 = Some n.
Proof.
  intros Hn. cbn [number]. rewrite !digit_value_digit. f_equal. lia.
Qed.

Lemma number_pad4 n :
  0 <= n < 10000 ->
  number [digit (n / 10 / 10 / 10); digit (n / 10 / 10); digit (n / 10); digit n] 0
  = Some n.
Proof.
  intros Hn. cbn [number]. rewrite !digit_value_digit. f_equal. lia.
Qed.

Lemma number_pad6 n :
  0 <= n < 1000000 ->
  number [digit (n / 10 / 10 / 10 / 10 / 10); digit (n / 10 / 10 / 10 / 10);
          digit (n / 10 / 10 / 10); digit (n / 10 / 10); digit (n / 10); digit n] 0
  = Some n.
Proof.
  intros Hn. cbn [number]. rewrite !digit_value_digit. f_equal. lia.
Qed.

Lemma field_pad2 lo hi n :
  0 <= n < 100 -> lo <= n <= hi ->
  field lo hi [digit (n / 10); digit n] = Some n.
Proof.
  intros Hn Hr. unfold field. rewrite number_pad2 by assumption.
  destruct (Z.leb_spec lo n), (Z.leb_spec n hi); cbn [andb]; (reflexivity || lia).
Qed.

Lemma field_pad3 lo hi n :
  0 <= n < 1000 -> lo <= n <= hi ->
  field lo hi [digit (n / 10 / 10); digit (n / 10); digit n] = Some n.
Proof.
  intros Hn Hr. unfold field. rewrite number_pad3 by assumption.
  destruct (Z.leb_spec lo n), (Z.leb_spec n hi); cbn [andb]; (reflexivity || lia).
Qed.

Lemma list_ascii_of_string_app s1 s2 :
  list_ascii_of_string (s1 +:+ s2)
  = (list_ascii_of_string s1 ++ list_ascii_of_string s2)%list.
Proof.
  induction s1 as [|c s1 IH]; [reflexivity|].
  cbn [list_ascii_of_string app]. rewrite <- IH. reflexivity.
Qed.

Lemma toISOString_chars t :
  list_ascii_of_string (toISOString t)
  = (list_ascii_of_string (year_string (YearFromTime t)) ++ after_year t)%list.
Proof.
  unfold toISOString, after_year.
  rewrite list_ascii_of_string_app. f_equal.
Qed.

(** Read in the year of [t], what follows the year denotes [t]. *)
Lemma instant_after_year t :
  instant_in_year (YearFromTime t) (after_year t) = Some t.
Proof.
  pose proof (date_in_month t) as (Hm & Hd & Hday).
  pose proof (time_of_day t) as Htime.
  assert (Hdim : days_in_month (YearFromTime t) (MonthFromTime t + 1) <= 31).
  { unfold days_in_month.
    repeat match goal with |- context [if ?b then _ else _] => destruct b end; lia. }
  unfold instant_in_year, after_year. lazy beta iota zeta.
  cbn [Ascii.eqb Bool.eqb andb].
  rewrite (field_pad2 1 12) by lia.
  rewrite (field_pad2 1 (days_in_month _ _)) by lia.
  rewrite !field_pad2, field_pad3
    by (unfold HourFromTime, MinFromTime, SecFromTime, msFromTime; lia).
  f_equal. unfold DayWithinYear in Hday. lia.
Qed.

Lemma pad4_chars n :
  list_ascii_of_string (pad 4 n)
  = [digit (n / 10 / 10 / 10); digit (n / 10 / 10); digit (n / 10); digit n].
Proof. reflexivity. Qed.

Lemma pad6_chars sign n :
  list_ascii_of_string (String sign EmptyString +:+ pad 6 n)
  = [sign; digit (n / 10 / 10 / 10 / 10 / 10); digit (n / 10 / 10 / 10 / 10);
     digit (n / 10 / 10 / 10); digit (n / 10 / 10); digit (n / 10); digit n].
Proof. reflexivity. Qed.

(** The timestamp of a time value is well formed and denotes it. *)
Lemma toISOString_instant t :
  Z.abs t <= maxTime -> instant_of_iso8601 (toISOString t) = Some t.
Proof.
  intros Ht. pose proof (year_in_range t Ht) as Hy.
  pose proof (instant_after_year t) as Hafter.
  unfold instant_of_iso8601. rewrite toISOString_chars.
  set (y := YearFromTime t) in *. clearbody y.
  set (tail := after_year t) in *. clearbody tail.
  unfold year_string.
  destruct (Z.leb_spec 0 y) as [Hpos|Hneg]; cbn [andb].
  - destruct (Z.leb_spec y 9999) as [Hsmall|Hlarge].
    + rewrite pad4_chars. cbn [app].
      rewrite digit_not_sign, number_pad4 by lia. exact Hafter.
    + destruct (Z.ltb_spec y 0); [lia|].
      rewrite pad6_chars. cbn [app Ascii.eqb Bool.eqb andb orb].
      rewrite number_pad6 by lia.
      replace (Z.abs y) with y by lia. exact Hafter.
  - destruct (Z.ltb_spec y 0); [|lia].
    rewrite pad6_chars. cbn [app Ascii.eqb Bool.eqb andb orb].
    rewrite number_pad6 by lia.
    destruct (Z.eqb_spec (Z.abs y) 0); [lia|].
    replace (- Z.abs y) with y by lia. exact Hafter.
Qed.

Lemma toISOString_valid t :
  Z.abs t <= maxTime -> is_iso8601_utc_ms (toISOString t) = true.
Proof.
  intros Ht. unfold is_iso8601_utc_ms. by rewrite toISOString_instant.
Qed.

End DateFacts.

(** ** How the stacks behave *)

Module Facts.
Import Js Http RateLimit Server Outline.

Section WithRuntime.
Context {rt : Runtime}.

(** *** The routes as both stacks reach them *)

Lemma blacklisted_names st st' env req :
  blacklistedNames st = blacklistedNames st' ->
  fst (blacklisted st env req) = fst (blacklisted st' env req).
Proof.
  intros E. unfold blacklisted. rewrite E.
  destruct (negb _); [reflexivity|].
  destruct (some _ _); reflexivity.
Qed.

Lemma blacklisted_replies st env req :
  fst (blacklisted st env req) <> Next.
Proof.
  unfold blacklisted. destruct (negb _); [discriminate|].
  destruct (some _ _); discriminate.
Qed.

Lemma blacklisted_pure st env req : snd (blacklisted st env req) = st.
Proof.
  unfold blacklisted. destruct (negb _); [reflexivity|].
  destruct (some _ _); reflexivity.
Qed.

Lemma body_parses_cases req :
  body_parses req = true -> req_body req = NoBody \/ exists j, req_body req = Parsed j.
Proof.
  unfold body_parses. destruct (req_body req); [by left|right; by eexists|discriminate].
Qed.

Lemma body_fails_cases req :
  body_parses req = false -> exists e, req_body req = Unparsable e.
Proof.
  unfold body_parses. destruct (req_body req); [discriminate| discriminate|by eexists].
Qed.

Lemma express_json_parsed st env req :
  body_parses req = true -> express_json st env req = (Next, st).
Proof.
  unfold body_parses, express_json. by destruct (req_body req).
Qed.

(** A body that does not parse: the error passes every layer up to the
    error handler. *)
Lemma serve_body_fault v st env req e :
  req_body req = Unparsable e ->
  serve v st env req = (Some (internal_error e), console_error (err_stack e) st).
Proof.
  intros E. unfold serve.
  destruct v; cbn [app route match_error mount_matches run_chain];
    unfold express_json at 1; rewrite E; reflexivity.
Qed.

(** The stack of the file without limiters, past [express.json()]. *)
Lemma serve_minimal_parsed st env req :
  body_parses req = true ->
  serve Minimal st env req
  = route [Get "/health" [health]; Get "/blacklisted" [blacklisted];
           Use Star [not_found]; UseError error_handler] None st env req.
Proof.
  intros Hbody. unfold serve.
  cbn [app route match_error mount_matches run_chain].
  by rewrite express_json_parsed.
Qed.

(** The stack of [src/server.js], past [express.json()] and the general
    limiter. *)
Lemma serve_full_parsed st env req :
  body_parses req = true ->
  serve Full st env req
  = let counted :=
      set_generalHits
        (<[req_ip req := hit generalLimiter (generalHits st) (req_ip req) (now env)]>
           (generalHits st)) st in
    if exceeded generalLimiter (generalHits st) (req_ip req) (now env)
    then (Some (mkResponse 429 (AsJson (message generalLimiter))), counted)
    else route [Use (Under "/api-docs") [api_docs];
                Get "/api-docs.json" [api_docs_json];
                Get "/health" [health];
                Get "/blacklisted" [blacklistLimiter_mw; blacklisted];
                Use Star [not_found]; UseError error_handler]
               None counted env req.
Proof.
  intros Hbody. unfold serve.
  cbn [app route match_error mount_matches run_chain].
  rewrite express_json_parsed by assumption.
  unfold generalLimiter_mw at 1, rateLimit at 1. cbv zeta.
  destruct (exceeded generalLimiter _ _ _); reflexivity.
Qed.

Lemma answer_parsed st env req :
  body_parses req = true -> answer st env req = routes st env req.
Proof. unfold body_parses, answer. by destruct (req_body req). Qed.

Lemma answer_body_fault st env req e :
  req_body req = Unparsable e -> answer st env req = Some (internal_error e).
Proof. intros E. unfold answer. by rewrite E. Qed.

Lemma routes_minimal st env req :
  fst (route [Get "/health" [health]; Get "/blacklisted" [blacklisted];
              Use Star [not_found]; UseError error_handler] None st env req)
  = routes st env req.
Proof.
  unfold routes. cbn [route match_error mount_matches run_chain].
  fold (is_health req) (is_blacklisted req).
  destruct (is_health req); [reflexivity|].
  destruct (is_blacklisted req).
  - unfold reply, internal_error.
    pose proof (blacklisted_replies st env req) as Hn.
    destruct (blacklisted st env req) as [[r| |e] st']; cbn [fst] in *;
      try reflexivity.
    congruence.
  - destruct (decode_param (req_path req)); reflexivity.
Qed.

Lemma serve_minimal st env req :
  fst (serve Minimal st env req) = answer st env req.
Proof.
  destruct (body_parses req) eqn:Hbody.
  - rewrite serve_minimal_parsed, answer_parsed by assumption.
    apply routes_minimal.
  - destruct (body_fails_cases req Hbody) as [e E].
    by rewrite (serve_body_fault Minimal st env req e E), (answer_body_fault st env req e E).
Qed.

Lemma routes_names st st' env req :
  blacklistedNames st = blacklistedNames st' -> routes st env req = routes st' env req.
Proof.
  intros E. unfold routes. destruct (is_health req); [reflexivity|].
  destruct (is_blacklisted req); [|reflexivity].
  unfold reply. by rewrite (blacklisted_names st st' env req E).
Qed.

(** The answer reads the process through the blacklist only. *)
Lemma answer_names st st' env req :
  blacklistedNames st = blacklistedNames st' -> answer st env req = answer st' env req.
Proof.
  intros E. unfold answer. destruct (req_body req); try reflexivity;
    by apply routes_names.
Qed.

Lemma mount_matches_under path :
  mount_matches (Under "/api-docs") path
  = String.eqb (lower path) "/api-docs"
    || String.prefix ("/api-docs" +:+ "/") (lower path).
Proof. reflexivity. Qed.

Lemma serve_full st env req :
  rate_limited Full st env req = false ->
  is_documentation req = false ->
  fst (serve Full st env req) = answer st env req.
Proof.
  unfold rate_limited, is_documentation. intros Hlim Hdoc.
  destruct (body_parses req) eqn:Hbody.
  2: { destruct (body_fails_cases req Hbody) as [e E].
       by rewrite (serve_body_fault Full st env req e E),
         (answer_body_fault st env req e E). }
  apply orb_false_elim in Hlim as [Hgen Hbl].
  apply orb_false_elim in Hdoc as [Hmount Hjson].
  rewrite serve_full_parsed, answer_parsed by assumption. cbv zeta.
  rewrite Hgen. unfold routes.
  cbn [route match_error run_chain].
  rewrite Hmount, Hjson.
  fold (is_health req) (is_blacklisted req).
  destruct (is_health req); [reflexivity|].
  destruct (is_blacklisted req).
  - cbn [andb] in Hbl. cbn [run_chain].
    unfold blacklistLimiter_mw at 1, rateLimit at 1.
    cbn [blacklistHits set_generalHits]. rewrite Hbl.
    match goal with
    | |- context [blacklisted ?s env req] =>
        pose proof (blacklisted_replies s env req) as Hn;
        pose proof (blacklisted_names s st env req eq_refl) as Hs;
        destruct (blacklisted s env req) as [[r| |e] st']
    end; cbn [fst] in *; unfold reply; rewrite <- Hs; try reflexivity.
    congruence.
  - cbn [mount_matches]. destruct (decode_param (req_path req)); reflexivity.
Qed.

Lemma serve_admitted v st env req :
  rate_limited v st env req = false ->
  v = Minimal \/ is_documentation req = false ->
  fst (serve v st env req) = answer st env req.
Proof.
  intros Hlim Hdoc. destruct v.
  - apply serve_minimal.
  - destruct Hdoc as [|Hdoc]; [discriminate|]. by apply serve_full.
Qed.

(** *** Paths: the registered patterns exclude one another *)

Lemma route_matches_cases pattern path :
  route_matches pattern path = true ->
  lower path = pattern \/ lower path = pattern +:+ "/".
Proof.
  unfold route_matches. intros [H|H]%orb_prop; apply String.eqb_eq in H; auto.
Qed.

Lemma blacklisted_not_health req :
  is_blacklisted req = true -> is_health req = false.
Proof.
  unfold is_blacklisted, is_health. intros [Hm Hp]%andb_prop. rewrite Hm.
  unfold route_matches at 1.
  destruct (route_matches_cases _ _ Hp) as [-> | ->]; reflexivity.
Qed.

Lemma blacklisted_not_documentation req :
  is_blacklisted req = true -> is_documentation req = false.
Proof.
  unfold is_blacklisted, is_documentation. intros [Hm Hp]%andb_prop. rewrite Hm.
  unfold route_matches at 1, mount_matches.
  destruct (route_matches_cases _ _ Hp) as [-> | ->]; reflexivity.
Qed.

Lemma health_not_documentation req :
  is_health req = true -> is_documentation req = false.
Proof.
  unfold is_health, is_documentation. intros [Hm Hp]%andb_prop. rewrite Hm.
  unfold route_matches at 1, mount_matches.
  destruct (route_matches_cases _ _ Hp) as [-> | ->]; reflexivity.
Qed.

(** *** The blacklist is never written *)

Lemma run_chain_keeps chain :
  Forall keeps_blacklist chain -> keeps_blacklist (run_chain chain).
Proof.
  induction 1 as [|f rest Hf _ IH]; intros st env req; cbn [run_chain]; [reflexivity|].
  specialize (Hf st env req).
  destruct (f st env req) as [[r| |e] st']; cbn [snd] in *; try assumption.
  rewrite IH. assumption.
Qed.

Lemma route_keeps stack :
  Forall layer_keeps_blacklist stack ->
  forall pending st env req,
    blacklistedNames (snd (route stack pending st env req)) = blacklistedNames st.
Proof.
  induction 1 as [|l rest Hl _ IH]; intros pending st env req; cbn [route]; [reflexivity|].
  assert (Hcont : forall o : Outcome * State,
    blacklistedNames (snd o) = blacklistedNames st ->
    blacklistedNames (snd (match o with
      | (Sent r, st') => (Some r, st')
      | (Next, st') => route rest None st' env req
      | (Raise e, st') => route rest (Some e) st' env req
      end)) = blacklistedNames st).
  { intros [[r| |e] st'] Ho; cbn [snd] in *; rewrite ?IH; assumption. }
  destruct pending as [e|], l as [m chain|path chain|h]; cbn [layer_keeps_blacklist] in Hl;
    try apply IH.
  - apply Hcont, Hl.
  - destruct (match_error _ _); [apply IH|].
    destruct (mount_matches _ _); [|apply IH].
    apply Hcont. by apply run_chain_keeps.
  - destruct (_ && _); [|apply IH].
    apply Hcont. by apply run_chain_keeps.
Qed.

Lemma express_json_keeps : keeps_blacklist express_json.
Proof. intros st env req. unfold express_json. by destruct (req_body req). Qed.

Lemma health_keeps : keeps_blacklist health.
Proof. intros st env req. reflexivity. Qed.

Lemma blacklisted_keeps : keeps_blacklist blacklisted.
Proof. intros st env req. by rewrite blacklisted_pure. Qed.

Lemma not_found_keeps : keeps_blacklist not_found.
Proof. intros st env req. reflexivity. Qed.

Lemma error_handler_keeps e : keeps_blacklist (error_handler e).
Proof. intros st env req. reflexivity. Qed.

Lemma rateLimit_general_keeps : keeps_blacklist generalLimiter_mw.
Proof.
  intros st env req. unfold generalLimiter_mw, rateLimit.
  destruct (exceeded _ _ _ _); reflexivity.
Qed.

Lemma rateLimit_blacklist_keeps : keeps_blacklist blacklistLimiter_mw.
Proof.
  intros st env req. unfold blacklistLimiter_mw, rateLimit.
  destruct (exceeded _ _ _ _); reflexivity.
Qed.

Lemma api_docs_keeps : keeps_blacklist api_docs.
Proof. intros st env req. reflexivity. Qed.

Lemma api_docs_json_keeps : keeps_blacklist api_docs_json.
Proof. intros st env req. reflexivity. Qed.

Lemma app_keeps v : Forall layer_keeps_blacklist (app v).
Proof.
  destruct v; cbn [app]; repeat constructor;
    auto using express_json_keeps, health_keeps, blacklisted_keeps,
      not_found_keeps, error_handler_keeps, rateLimit_general_keeps,
      rateLimit_blacklist_keeps, api_docs_keeps, api_docs_json_keeps.
Qed.

Lemma serve_keeps v st env req :
  blacklistedNames (snd (serve v st env req)) = blacklistedNames st.
Proof. apply route_keeps, app_keeps. Qed.

Lemma reachable_blacklist v st :
  reachable v st -> blacklistedNames st = configured_names.
Proof.
  induction 1 as [|st env req _ IH]; [reflexivity|].
  by rewrite serve_keeps.
Qed.

Lemma run_reachable v trace : forall st,
  reachable v st -> reachable v (snd (run v st trace)).
Proof.
  induction trace as [|[env req] rest IH]; intros st Hst; cbn [run]; [assumption|].
  pose proof (reachable_step v st env req Hst) as Hstep.
  destruct (serve v st env req) as [r st']. cbn [snd] in Hstep.
  specialize (IH st' Hstep). destruct (run v st' rest) as [rs st'']. assumption.
Qed.

(** *** The lookup *)

Lemma some_same_name_string s names :
  some (same_name (Some (QStr s))) names
  = Ok (existsb (fun entry => String.eqb (toLowerCase entry) (toLowerCase s)) names).
Proof.
  induction names as [|entry rest IH]; cbn [some existsb]; [reflexivity|].
  unfold same_name at 1. cbn [name_toLowerCase].
  destruct (String.eqb _ _); cbn [orb]; [reflexivity|exact IH].
Qed.

Lemma existsb_same_name s names :
  existsb (fun entry => String.eqb (toLowerCase entry) (toLowerCase s)) names = true
  <-> exists entry, In entry names /\ toLowerCase entry = toLowerCase s.
Proof.
  rewrite existsb_exists. split; intros [entry [Hin E]]; exists entry; split; auto;
    by apply String.eqb_eq.
Qed.

Lemma some_same_name_not_string v entry rest :
  is_string v = false ->
  some (same_name (Some v)) (entry :: rest)
  = Thrown (TypeError "name.toLowerCase is not a function").
Proof. destruct v; [discriminate|reflexivity..]. Qed.

Lemma truthy_not_string v : is_string v = false -> truthy (Some v) = true.
Proof. destruct v; [discriminate|reflexivity..]. Qed.

Lemma routes_blacklisted st env req :
  is_blacklisted req = true ->
  routes st env req = reply (blacklisted st env req).
Proof.
  intros H. unfold routes. by rewrite (blacklisted_not_health req H), H.
Qed.

Lemma answer_blacklisted st env req :
  body_parses req = true ->
  is_blacklisted req = true ->
  answer st env req = reply (blacklisted st env req).
Proof.
  intros Hbody H. rewrite answer_parsed by assumption. by apply routes_blacklisted.
Qed.

Lemma answer_lookup st env req s :
  body_parses req = true ->
  is_blacklisted req = true ->
  query_get "name" (req_query req) = Some (QStr s) -> s <> "" ->
  answer st env req = Some (mkResponse 200 (AsJson (JObj
    [("name", JStr s);
     ("isBlacklisted",
      JBool (existsb (fun entry => String.eqb (toLowerCase entry) (toLowerCase s))
                     (blacklistedNames st)))]))).
Proof.
  intros Hbody Hb Hq Hs. rewrite answer_blacklisted by assumption.
  unfold blacklisted. rewrite Hq. cbn [truthy].
  apply String.eqb_neq in Hs. rewrite Hs. cbn [negb].
  rewrite some_same_name_string. reflexivity.
Qed.

Lemma answer_listing st env req :
  body_parses req = true ->
  is_blacklisted req = true ->
  truthy (query_get "name" (req_query req)) = false ->
  answer st env req = Some (mkResponse 200 (AsJson (JObj
    [("blacklistedNames", JArr (List.map JStr (blacklistedNames st)));
     ("count", JNum (inject_Z (Z.of_nat (length (blacklistedNames st)))))]))).
Proof.
  intros Hbody Hb Hq. rewrite answer_blacklisted by assumption.
  unfold blacklisted. rewrite Hq. reflexivity.
Qed.

Lemma answer_not_string st env req v entry rest :
  body_parses req = true ->
  is_blacklisted req = true ->
  query_get "name" (req_query req) = Some v -> is_string v = false ->
  blacklistedNames st = entry :: rest ->
  answer st env req = Some (mkResponse 500 (AsJson (JObj
    [("error", JStr "Internal server error");
     ("message", JStr "name.toLowerCase is not a function")]))).
Proof.
  intros Hbody Hb Hq Hv Hn. rewrite answer_blacklisted by assumption.
  unfold blacklisted. rewrite Hq, truthy_not_string, Hn by assumption. cbn [negb].
  rewrite some_same_name_not_string by assumption. reflexivity.
Qed.

Lemma answer_health st env req :
  body_parses req = true ->
  is_health req = true ->
  answer st env req = Some (mkResponse 200 (AsJson (JObj
    [("status", JStr "healthy");
     ("timestamp", JStr (toISOString (now env)));
     ("uptime", JNum (uptime env));
     ("service", JStr "blacklisted-mock-api-server")]))).
Proof.
  intros Hbody H. rewrite answer_parsed by assumption. unfold routes. by rewrite H.
Qed.

Lemma answer_unmatched st env req :
  body_parses req = true ->
  path_decodes req = true ->
  is_health req = false -> is_blacklisted req = false ->
  answer st env req = Some (mkResponse 404 (AsJson (JObj
    [("error", JStr "Endpoint not found");
     ("availableEndpoints",
      JArr [JStr "GET /health"; JStr "GET /blacklisted";
            JStr "GET /blacklisted?name=<name>"])]))).
Proof.
  intros Hbody Hpath H1 H2. rewrite answer_parsed by assumption.
  unfold routes, decode_param. unfold path_decodes in Hpath.
  by rewrite H1, H2, Hpath.
Qed.

Lemma answer_undecodable st env req :
  body_parses req = true ->
  path_decodes req = false ->
  is_health req = false -> is_blacklisted req = false ->
  answer st env req = Some (internal_error (URIError (req_path req))).
Proof.
  intros Hbody Hpath H1 H2. rewrite answer_parsed by assumption.
  unfold routes, decode_param. unfold path_decodes in Hpath.
  by rewrite H1, H2, Hpath.
Qed.

(** *** Requests the limiters reject *)

Lemma serve_general_limited st env req :
  body_parses req = true ->
  exceeded generalLimiter (generalHits st) (req_ip req) (now env) = true ->
  fst (serve Full st env req)
  = Some (mkResponse 429 (AsJson (message generalLimiter))).
Proof.
  intros Hbody H. rewrite serve_full_parsed by assumption. cbv zeta.
  by rewrite H.
Qed.

Lemma serve_blacklist_limited st env req :
  body_parses req = true ->
  exceeded generalLimiter (generalHits st) (req_ip req) (now env) = false ->
  is_blacklisted req = true ->
  exceeded blacklistLimiter (blacklistHits st) (req_ip req) (now env) = true ->
  fst (serve Full st env req)
  = Some (mkResponse 429 (AsJson (message blacklistLimiter))).
Proof.
  intros Hbody Hgen Hb Hbl.
  pose proof (blacklisted_not_health req Hb) as Hh.
  pose proof (blacklisted_not_documentation req Hb) as Hdoc.
  unfold is_documentation in Hdoc. apply orb_false_elim in Hdoc as [Hmount Hjson].
  rewrite serve_full_parsed by assumption. cbv zeta. rewrite Hgen.
  cbn [route match_error run_chain].
  rewrite Hmount, Hjson.
  fold (is_health req) (is_blacklisted req). rewrite Hh, Hb.
  cbn [run_chain]. unfold blacklistLimiter_mw at 1, rateLimit at 1.
  cbn [blacklistHits set_generalHits]. rewrite Hbl. reflexivity.
Qed.

Lemma serve_docs_json st env req :
  body_parses req = true ->
  exceeded generalLimiter (generalHits st) (req_ip req) (now env) = false ->
  mount_matches (Under "/api-docs") (req_path req) = false ->
  handled_by_get (req_method req) && route_matches "/api-docs.json" (req_path req)
  = true ->
  fst (serve Full st env req) = Some (mkResponse 200 (AsJson swaggerSpec)).
Proof.
  intros Hbody Hgen Hmount Hjson.
  rewrite serve_full_parsed by assumption. cbv zeta. rewrite Hgen.
  cbn [route match_error run_chain].
  rewrite Hmount, Hjson. reflexivity.
Qed.

Lemma serve_docs_mount st env req :
  body_parses req = true ->
  exceeded generalLimiter (generalHits st) (req_ip req) (now env) = false ->
  mount_matches (Under "/api-docs") (req_path req) = true ->
  fst (serve Full st env req) = Some (swaggerUi (req_method req) (req_path req)).
Proof.
  intros Hbody Hgen Hmount.
  rewrite serve_full_parsed by assumption. cbv zeta. rewrite Hgen.
  cbn [route match_error run_chain].
  rewrite Hmount. reflexivity.
Qed.

Lemma answer_status st env req :
  exists r, answer st env req = Some r
            /\ (status r = 200 \/ status r = 404 \/ status r = 500).
Proof.
  unfold answer.
  assert (H : exists r, routes st env req = Some r
                        /\ (status r = 200 \/ status r = 404 \/ status r = 500)).
  { unfold routes.
    destruct (is_health req); [eexists; split; [reflexivity|auto]|].
    destruct (is_blacklisted req).
    - unfold blacklisted, reply. destruct (negb _).
      + eexists; split; [reflexivity|auto].
      + destruct (some _ _); eexists; (split; [reflexivity|cbn; auto]).
    - destruct (decode_param _); eexists; (split; [reflexivity|cbn; auto]). }
  destruct (req_body req); try exact H.
  eexists; split; [reflexivity|cbn; auto].
Qed.

(** *** The clock *)

Lemma now_in_range env : Z.abs (now env) <= maxTime.
Proof. unfold now. apply Z.leb_le, ms_in_range. Qed.

Lemma uptime_nonneg env : (0 <= uptime env)%Q.
Proof. unfold uptime, Qle. cbn. lia. Qed.

Lemma uptime_monotone env env' :
  (uptime_ns env <= uptime_ns env')%N -> (uptime env <= uptime env')%Q.
Proof. intros H. unfold uptime, Qle. cbn. lia. Qed.

(** *** Pending errors *)




(** *** The console *)

Lemma run_chain_quiet chain :
  Forall keeps_console chain -> keeps_console (run_chain chain).
Proof.
  induction 1 as [|f rest Hf _ IH]; intros st env req; cbn [run_chain]; [reflexivity|].
  specialize (Hf st env req).
  destruct (f st env req) as [[r| |e] st']; cbn [snd] in *; try assumption.
  rewrite IH. assumption.
Qed.

Lemma logged_after_error rest env req e st :
  logged (Some e) st (route rest (Some e) st env req) ->
  logged None st (route rest (Some e) st env req).
Proof.
  cbn [logged]. intros [[_ Hc]|[Hr Hc]]; [left; assumption|right; eauto].
Qed.

Lemma route_logged stack env req :
  Forall quiet_layer stack ->
  forall pending st, logged pending st (route stack pending st env req).
Proof.
  induction 1 as [|l rest Hl _ IH]; intros pending st.
  { destruct pending; cbn; auto. }
  assert (Hcont : forall o : Outcome * State,
    console (snd o) = console st ->
    logged None st (match o with
      | (Sent r, st') => (Some r, st')
      | (Next, st') => route rest None st' env req
      | (Raise e, st') => route rest (Some e) st' env req
      end)).
  { intros [[r| |e] st'] Ho; cbn [snd] in Ho.
    - left. assumption.
    - specialize (IH None st'). cbn [logged] in *. rewrite Ho in IH. assumption.
    - specialize (IH (Some e) st'). cbn [logged] in *. rewrite Ho in IH.
      destruct IH as [[_ Hc]|[Hr Hc]]; [left; assumption|right; eauto]. }
  cbn [route].
  destruct pending as [e|], l as [m chain|path chain|h]; cbn [quiet_layer] in Hl;
    try apply IH.
  - subst h. right. split; reflexivity.
  - destruct (match_error _ _) as [e|]; [apply logged_after_error, IH|].
    destruct (mount_matches _ _); [|apply IH].
    apply Hcont. by apply run_chain_quiet.
  - destruct (_ && _); [|apply IH].
    apply Hcont. by apply run_chain_quiet.
Qed.

Lemma rateLimit_quiet l get set :
  (forall h st, console (set h st) = console st) ->
  keeps_console (rateLimit l get set).
Proof.
  intros Hset st env req. unfold rateLimit.
  destruct (exceeded _ _ _ _); cbn [snd]; apply Hset.
Qed.

Lemma app_quiet v : Forall quiet_layer (app v).
Proof.
  assert (Hb : keeps_console blacklisted)
    by (intros st env req; by rewrite blacklisted_pure).
  assert (Hj : keeps_console express_json)
    by (intros st env req; unfold express_json; by destruct (req_body req)).
  destruct v; cbn [app]; repeat constructor; try assumption;
    try (intros st env req; reflexivity);
    apply rateLimit_quiet; reflexivity.
Qed.

End WithRuntime.
End Facts.

(** ** Routes, counters and what a response depends on *)

Module TrafficFacts.
Import Js Http RateLimit Server Outline Traffic Facts.

Section WithRuntime.
Context {rt : Runtime}.

(** *** The documentation route and the mount *)

Lemma json_route_cases req :
  handled_by_get (req_method req) && route_matches "/api-docs.json" (req_path req)
  = true ->
  mount_matches (Under "/api-docs") (req_path req) = false
  /\ is_health req = false /\ is_blacklisted req = false.
Proof.
  intros [Hm Hp]%andb_prop.
  unfold is_health, is_blacklisted, route_matches at 1 2, mount_matches.
  rewrite Hm.
  destruct (route_matches_cases _ _ Hp) as [-> | ->]; repeat split; reflexivity.
Qed.

Lemma mount_not_routes req :
  mount_matches (Under "/api-docs") (req_path req) = true ->
  is_health req = false /\ is_blacklisted req = false.
Proof.
  intros Hmount. split.
  - destruct (is_health req) eqn:H; [|reflexivity].
    apply health_not_documentation in H. unfold is_documentation in H.
    rewrite Hmount in H. discriminate.
  - destruct (is_blacklisted req) eqn:H; [|reflexivity].
    apply blacklisted_not_documentation in H. unfold is_documentation in H.
    rewrite Hmount in H. discriminate.
Qed.

(** *** Paths without escapes decode *)

Lemma escaped_octet_rest cs b rest :
  escaped_octet cs = Some (b, rest) -> length cs = (3 + length rest)%nat.
Proof.
  destruct cs as [|c [|h [|l cs]]]; try discriminate.
  cbn [escaped_octet]. destruct (Ascii.eqb c "%"); [|discriminate].
  destruct (hex_value h), (hex_value l); try discriminate.
  by intros [= _ <-].
Qed.

Lemma continuation_rest n : forall lo hi cs rest,
  continuation n lo hi cs = Some rest -> (length rest <= length cs)%nat.
Proof.
  induction n as [|n IH]; intros lo hi cs rest; cbn [continuation].
  - by intros [= <-].
  - destruct (escaped_octet cs) as [[b rest']|] eqn:E; [|discriminate].
    apply escaped_octet_rest in E.
    destruct ((lo <=? b) && (b <=? hi)); [|discriminate].
    intros H%IH. lia.
Qed.

(** The steps that [uri_decodes] allows are enough: allowing more does
    not change the outcome. *)
Lemma decodes_from_enough n : forall cs steps steps',
  (length cs <= n)%nat -> (length cs <= steps)%nat -> (length cs <= steps')%nat ->
  decodes_from steps cs = decodes_from steps' cs.
Proof.
  induction n as [|n IH]; intros [|c cs] steps steps' Hn H1 H2;
    cbn [length] in *; try lia; try (by destruct steps, steps').
  destruct steps as [|steps], steps' as [|steps']; try lia.
  cbn [decodes_from].
  destruct (Ascii.eqb c "%"); [|apply IH; lia].
  destruct (escaped_octet (c :: cs)) as [[b rest]|] eqn:E; [|reflexivity].
  apply escaped_octet_rest in E. cbn [length] in E.
  destruct (b <? 128); [apply IH; lia|].
  destruct (utf8_lead b) as [[[k lo] hi]|]; [|reflexivity].
  destruct (continuation k lo hi rest) as [rest'|] eqn:C; [|reflexivity].
  apply continuation_rest in C. apply IH; lia.
Qed.

Lemma uri_decodes_steps s steps :
  (String.length s <= steps)%nat ->
  decodes_from steps (list_ascii_of_string s) = uri_decodes s.
Proof.
  intros H. unfold uri_decodes.
  assert (L : length (list_ascii_of_string s) = String.length s).
  { clear. induction s as [|c s IH]; [reflexivity|]. cbn. by rewrite IH. }
  apply (decodes_from_enough (length (list_ascii_of_string s))); lia.
Qed.

Lemma decodes_no_escape cs : forall steps,
  (length cs <= steps)%nat -> no_escape cs = true -> decodes_from steps cs = true.
Proof.
  induction cs as [|c cs IH]; intros steps Hlen Hcs; [by destruct steps|].
  cbn [length] in Hlen. destruct steps as [|steps]; [lia|].
  cbn [no_escape forallb] in Hcs. apply andb_prop in Hcs as [Hc Hcs].
  cbn [decodes_from]. apply negb_true_iff in Hc. rewrite Hc.
  apply IH; [lia|assumption].
Qed.

Lemma lower_char_escape c : Ascii.eqb (lower_char c) "%" = Ascii.eqb c "%".
Proof. by destruct c as [[] [] [] [] [] [] [] []]. Qed.

Lemma no_escape_lower s :
  no_escape (list_ascii_of_string (lower s)) = no_escape (list_ascii_of_string s).
Proof.
  induction s as [|c s IH]; [reflexivity|].
  cbn [lower list_ascii_of_string no_escape forallb].
  rewrite lower_char_escape. f_equal. exact IH.
Qed.

Lemma lower_decodes s :
  no_escape (list_ascii_of_string (lower s)) = true -> uri_decodes s = true.
Proof.
  rewrite no_escape_lower. intros H. unfold uri_decodes.
  by apply decodes_no_escape.
Qed.

Lemma json_route_decodes req :
  handled_by_get (req_method req) && route_matches "/api-docs.json" (req_path req)
  = true ->
  path_decodes req = true.
Proof.
  intros [_ Hp]%andb_prop. apply lower_decodes.
  destruct (route_matches_cases _ _ Hp) as [-> | ->]; reflexivity.
Qed.

(** *** What the limiters count *)

Lemma serve_minimal_state st env req :
  snd (serve Minimal st env req) = st
  \/ exists e, snd (serve Minimal st env req) = console_error (err_stack e) st.
Proof.
  destruct (body_parses req) eqn:Hbody.
  2: { destruct (body_fails_cases req Hbody) as [e E].
       right. exists e. by rewrite (serve_body_fault Minimal st env req e E). }
  rewrite serve_minimal_parsed by assumption.
  cbn [route match_error mount_matches run_chain].
  fold (is_health req) (is_blacklisted req).
  destruct (is_health req); [left; reflexivity|].
  destruct (is_blacklisted req).
  - pose proof (blacklisted_pure st env req) as Hp.
    pose proof (blacklisted_replies st env req) as Hn.
    destruct (blacklisted st env req) as [[r| |e] st']; cbn [fst snd] in *; subst st'.
    + left; reflexivity.
    + congruence.
    + right. exists e. reflexivity.
  - destruct (decode_param (req_path req)) as [e|]; [right; by exists e|by left].
Qed.

(** The state a request leaves in [src/server.js]: the counters move,
    and an error adds its line to the console. *)
Lemma serve_full_state st env req :
  let ip := req_ip req in
  let counted :=
    set_generalHits
      (<[ip := hit generalLimiter (generalHits st) ip (now env)]> (generalHits st))
      st in
  let lookup :=
    set_blacklistHits
      (<[ip := hit blacklistLimiter (blacklistHits st) ip (now env)]>
         (blacklistHits st))
      counted in
  let st' := snd (serve Full st env req) in
  if negb (body_parses req) then exists e, st' = console_error (err_stack e) st
  else if exceeded generalLimiter (generalHits st) ip (now env) then st' = counted
  else if is_blacklisted req then
    st' = lookup \/ exists e, st' = console_error (err_stack e) lookup
  else st' = counted \/ exists e, st' = console_error (err_stack e) counted.
Proof.
  intros ip counted lookup st'. subst st'.
  destruct (body_parses req) eqn:Hbody; cbn [negb].
  2: { destruct (body_fails_cases req Hbody) as [e E].
       exists e. by rewrite (serve_body_fault Full st env req e E). }
  rewrite serve_full_parsed by assumption. cbv zeta. fold ip. fold counted.
  destruct (exceeded generalLimiter (generalHits st) ip (now env)); [reflexivity|].
  cbn [route match_error run_chain].
  destruct (mount_matches (Under "/api-docs") (req_path req)) eqn:Hmount.
  { destruct (mount_not_routes req Hmount) as [_ ->]. by left. }
  destruct (handled_by_get (req_method req)
            && route_matches "/api-docs.json" (req_path req)) eqn:Hjson.
  { destruct (json_route_cases req Hjson) as (_ & _ & ->). by left. }
  fold (is_health req) (is_blacklisted req).
  destruct (is_blacklisted req) eqn:Hb.
  - rewrite (blacklisted_not_health req Hb).
    cbn [run_chain]. unfold blacklistLimiter_mw, rateLimit.
    fold ip. change (blacklistHits counted) with (blacklistHits st).
    fold lookup.
    destruct (exceeded blacklistLimiter (blacklistHits st) ip (now env));
      [left; reflexivity|].
    pose proof (blacklisted_pure lookup env req) as Hp.
    pose proof (blacklisted_replies lookup env req) as Hn.
    destruct (blacklisted lookup env req) as [[r| |e] s]; cbn [fst snd] in *; subst s.
    + left; reflexivity.
    + congruence.
    + right. exists e. reflexivity.
  - destruct (is_health req); [by left|].
    cbn [mount_matches].
    destruct (decode_param (req_path req)) as [e|]; [right; by exists e|by left].
Qed.

Lemma serve_full_generalHits st env req :
  generalHits (snd (serve Full st env req))
  = if body_parses req
    then <[req_ip req := hit generalLimiter (generalHits st) (req_ip req) (now env)]>
           (generalHits st)
    else generalHits st.
Proof.
  pose proof (serve_full_state st env req) as H. cbv zeta in H.
  destruct (body_parses req); cbn [negb] in H; [|by destruct H as [e ->]].
  destruct (exceeded generalLimiter _ _ _); [by rewrite H|].
  destruct (is_blacklisted req); destruct H as [->|[e ->]]; reflexivity.
Qed.

Lemma serve_full_blacklistHits st env req :
  blacklistHits (snd (serve Full st env req))
  = if body_parses req
       && negb (exceeded generalLimiter (generalHits st) (req_ip req) (now env))
       && is_blacklisted req
    then <[req_ip req := hit blacklistLimiter (blacklistHits st) (req_ip req) (now env)]>
           (blacklistHits st)
    else blacklistHits st.
Proof.
  pose proof (serve_full_state st env req) as H. cbv zeta in H.
  destruct (body_parses req); cbn [negb andb] in *; [|by destruct H as [e ->]].
  destruct (exceeded generalLimiter _ _ _); cbn [negb andb]; [by rewrite H|].
  destruct (is_blacklisted req); destruct H as [->|[e ->]]; reflexivity.
Qed.

(** *** What a response depends on *)



(** *** What the layers read of a request *)

Lemma run_chain_reads chain :
  Forall reads_view chain -> reads_view (run_chain chain).
Proof.
  induction 1 as [|f rest Hf _ IH]; intros st env req1 req2 Hv;
    cbn [run_chain]; [reflexivity|].
  rewrite (Hf st env req1 req2 Hv).
  destruct (f st env req2) as [[r| |e] st']; try reflexivity.
  by apply IH.
Qed.

Lemma route_reads stack req1 req2 :
  Forall layer_reads_view stack ->
  same_view req1 req2 ->
  forall pending st env,
    route stack pending st env req1 = route stack pending st env req2.
Proof.
  intros Hstack Hv. pose proof Hv as (Hm & Hp & _ & _ & _).
  induction Hstack as [|l rest Hl _ IH]; intros pending st env;
    cbn [route]; [reflexivity|].
  rewrite <- Hm, <- Hp.
  destruct pending as [e|], l as [m chain|path chain|h];
    cbn [layer_reads_view] in Hl; try apply IH.
  - rewrite (Hl e st env req1 req2 Hv).
    destruct (h e st env req2) as [[r| |e'] st']; [reflexivity|apply IH..].
  - destruct (match_error _ _); [apply IH|].
    destruct (mount_matches _ _); [|apply IH].
    rewrite (run_chain_reads chain Hl st env req1 req2 Hv).
    destruct (run_chain chain st env req2) as [[r| |e'] st'];
      [reflexivity|apply IH..].
  - destruct (_ && _); [|apply IH].
    rewrite (run_chain_reads chain Hl st env req1 req2 Hv).
    destruct (run_chain chain st env req2) as [[r| |e'] st'];
      [reflexivity|apply IH..].
Qed.

Lemma express_json_reads : reads_view express_json.
Proof.
  intros st env req1 req2 (_ & _ & Hbody & _ & _).
  unfold express_json. unfold body_fault in Hbody.
  destruct (req_body req1), (req_body req2); congruence.
Qed.

Lemma rateLimit_reads l get set : reads_view (rateLimit l get set).
Proof.
  intros st env req1 req2 (_ & _ & _ & Hip & _). unfold rateLimit. by rewrite Hip.
Qed.

Lemma blacklisted_reads : reads_view blacklisted.
Proof.
  intros st env req1 req2 (_ & _ & _ & _ & Hq). unfold blacklisted. by rewrite Hq.
Qed.

Lemma api_docs_reads : reads_view api_docs.
Proof.
  intros st env req1 req2 (Hm & Hp & _ & _ & _). unfold api_docs. by rewrite Hm, Hp.
Qed.

Lemma app_reads v : Forall layer_reads_view (app v).
Proof.
  destruct v; cbn [app]; repeat constructor;
    try apply express_json_reads;
    try apply rateLimit_reads; try apply blacklisted_reads;
    try apply api_docs_reads; intros st env req1 req2 _; reflexivity.
Qed.

(** *** Other addresses *)


(** *** The allowance of an address over a stretch of time *)

Ltac limits :=
  change (max generalLimiter) with 100%nat in *;
  change (max blacklistLimiter) with 20%nat in *;
  change (windowMs generalLimiter) with 900000 in *;
  change (windowMs blacklistLimiter) with 60000 in *.

Lemma answer_not_429 st env req r :
  answer st env req = Some r -> status r <> 429.
Proof.
  intros H. destruct (answer_status st env req) as (r' & Hr' & Hs).
  rewrite H in Hr'. injection Hr' as <-. lia.
Qed.

Lemma closed_settled len t1 store ip :
  closed_at t1 store ip ->
  0 < len ->
  settled len t1 store ip /\ hits_since len t1 store ip = O.
Proof.
  intros Hclosed Hlen. split.
  - intros n reset E. left. by eapply Hclosed.
  - unfold hits_since. destruct (store !! ip) as [[n reset]|] eqn:E; [|reflexivity].
    specialize (Hclosed n reset E). destruct (Z.leb_spec (t1 + len) reset); [lia|reflexivity].
Qed.

(** A hit within the stretch counts one more in a window that outlasts
    the stretch. *)
Lemma hit_within l len t1 store ip t :
  len <= windowMs l ->
  settled len t1 store ip ->
  t1 <= t < t1 + len ->
  fst (hit l store ip t) = S (hits_since len t1 store ip)
  /\ t1 + len <= snd (hit l store ip t).
Proof.
  intros Hlen Hs Ht. unfold hit, hits_since.
  destruct (store !! ip) as [[n reset]|] eqn:E; cbn [fst snd]; [|lia].
  destruct (Hs n reset E) as [Hold|Hnew].
  - destruct (Z.ltb_spec t reset); [lia|].
    destruct (Z.leb_spec (t1 + len) reset); cbn [fst snd]; lia.
  - destruct (Z.ltb_spec t reset); [|lia].
    destruct (Z.leb_spec (t1 + len) reset); cbn [fst snd]; lia.
Qed.

Lemma settled_hit l len t1 store ip t :
  len <= windowMs l ->
  settled len t1 store ip ->
  t1 <= t < t1 + len ->
  settled len t1 (<[ip := hit l store ip t]> store) ip
  /\ hits_since len t1 (<[ip := hit l store ip t]> store) ip
     = S (hits_since len t1 store ip).
Proof.
  intros Hlen Hs Ht.
  destruct (hit_within l len t1 store ip t Hlen Hs Ht) as [Hn Hreset].
  split.
  - intros n reset. rewrite lookup_insert_eq. intros [= E]. right.
    rewrite E in Hreset. exact Hreset.
  - unfold hits_since at 1. rewrite lookup_insert_eq.
    destruct (hit l store ip t) as [n reset]. cbn [fst snd] in *.
    destruct (Z.leb_spec (t1 + len) reset); [assumption|lia].
Qed.

Lemma settled_lookup len t1 (store1 store2 : gmap string (nat * Z)) ip :
  store1 !! ip = store2 !! ip ->
  settled len t1 store2 ip ->
  settled len t1 store1 ip /\ hits_since len t1 store1 ip = hits_since len t1 store2 ip.
Proof.
  intros E Hs. split.
  - intros n reset. rewrite E. apply Hs.
  - unfold hits_since. by rewrite E.
Qed.

Lemma exceeded_within l len t1 store ip t :
  len <= windowMs l ->
  settled len t1 store ip ->
  t1 <= t < t1 + len ->
  exceeded l store ip t = (max l <? S (hits_since len t1 store ip))%nat.
Proof.
  intros Hlen Hs Ht. unfold exceeded.
  by destruct (hit_within l len t1 store ip t Hlen Hs Ht) as [-> _].
Qed.

Lemma counted_by_general_cases ip env req :
  counted_by_general ip (env, req) = true
  <-> req_ip req = ip /\ body_parses req = true.
Proof.
  unfold counted_by_general. cbn [snd]. rewrite andb_true_iff, String.eqb_eq.
  reflexivity.
Qed.

(** The general counter of an address over a stretch: a request of the
    address whose body parses is one more hit, any other request leaves
    the counter as it is. *)
Lemma general_window_step len ip t1 st env req :
  len <= windowMs generalLimiter ->
  settled len t1 (generalHits st) ip ->
  (req_ip req = ip -> t1 <= now env < t1 + len) ->
  let st' := snd (serve Full st env req) in
  settled len t1 (generalHits st') ip
  /\ hits_since len t1 (generalHits st') ip
     = ((if counted_by_general ip (env, req) then 1 else 0)
        + hits_since len t1 (generalHits st) ip)%nat
  /\ (counted_by_general ip (env, req) = true ->
      exceeded generalLimiter (generalHits st) (req_ip req) (now env)
      = (max generalLimiter <? S (hits_since len t1 (generalHits st) ip))%nat).
Proof.
  intros Hlen Hs Ht st'. subst st'. rewrite serve_full_generalHits.
  destruct (counted_by_general ip (env, req)) eqn:Hc.
  - apply counted_by_general_cases in Hc as [Hip Hbody]. rewrite Hbody.
    specialize (Ht Hip). subst ip.
    destruct (settled_hit generalLimiter len t1 (generalHits st) (req_ip req)
                (now env) Hlen Hs Ht) as [Hs' Hn].
    split; [assumption|]. split; [assumption|].
    intros _. by apply exceeded_within.
  - assert (E : (if body_parses req
                 then <[req_ip req := hit generalLimiter (generalHits st)
                                          (req_ip req) (now env)]> (generalHits st)
                 else generalHits st) !! ip = generalHits st !! ip).
    { destruct (body_parses req) eqn:Hbody; [|reflexivity].
      apply lookup_insert_ne. intros Hip.
      assert (counted_by_general ip (env, req) = true)
        by (by apply counted_by_general_cases).
      congruence. }
    destruct (settled_lookup len t1 _ _ ip E Hs) as [Hs' Hn].
    split; [assumption|]. split; [exact Hn|discriminate].
Qed.

(** The counter of /blacklisted over a stretch, for an address that the
    general limiter lets through. *)
Lemma route_window_step len ip t1 st env req :
  len <= windowMs blacklistLimiter ->
  settled len t1 (blacklistHits st) ip ->
  (req_ip req = ip -> t1 <= now env < t1 + len) ->
  (counted_by_general ip (env, req) = true ->
   exceeded generalLimiter (generalHits st) (req_ip req) (now env) = false) ->
  let st' := snd (serve Full st env req) in
  settled len t1 (blacklistHits st') ip
  /\ hits_since len t1 (blacklistHits st') ip
     = ((if counted_by_route ip (env, req) then 1 else 0)
        + hits_since len t1 (blacklistHits st) ip)%nat
  /\ (counted_by_route ip (env, req) = true ->
      exceeded blacklistLimiter (blacklistHits st) (req_ip req) (now env)
      = (max blacklistLimiter <? S (hits_since len t1 (blacklistHits st) ip))%nat).
Proof.
  intros Hlen Hs Ht Hgen st'. subst st'. rewrite serve_full_blacklistHits.
  unfold counted_by_route. cbn [snd].
  destruct (counted_by_general ip (env, req)) eqn:Hc; cbn [andb].
  - specialize (Hgen eq_refl).
    apply counted_by_general_cases in Hc as [Hip Hbody]. rewrite Hbody, Hgen.
    cbn [negb andb]. specialize (Ht Hip). subst ip.
    destruct (is_blacklisted req).
    + destruct (settled_hit blacklistLimiter len t1 (blacklistHits st) (req_ip req)
                  (now env) Hlen Hs Ht) as [Hs' Hn].
      split; [assumption|]. split; [assumption|].
      intros _. by apply exceeded_within.
    + split; [assumption|]. split; [reflexivity|discriminate].
  - assert (E : (if body_parses req
                    && negb (exceeded generalLimiter (generalHits st) (req_ip req)
                               (now env))
                    && is_blacklisted req
                 then <[req_ip req := hit blacklistLimiter (blacklistHits st)
                                          (req_ip req) (now env)]> (blacklistHits st)
                 else blacklistHits st) !! ip = blacklistHits st !! ip).
    { destruct (body_parses req) eqn:Hbody; [|reflexivity].
      destruct (_ && _); [|reflexivity].
      apply lookup_insert_ne. intros Hip.
      assert (counted_by_general ip (env, req) = true)
        by (by apply counted_by_general_cases).
      congruence. }
    destruct (settled_lookup len t1 _ _ ip E Hs) as [Hs' Hn].
    split; [assumption|]. split; [exact Hn|discriminate].
Qed.

(** What a request for /blacklisted gets when its body parses and the
    general limiter lets it through. *)
Lemma lookup_rejected st env req :
  body_parses req = true ->
  is_blacklisted req = true ->
  exceeded generalLimiter (generalHits st) (req_ip req) (now env) = false ->
  (option_map status (fst (serve Full st env req)) = Some 429
   <-> exceeded blacklistLimiter (blacklistHits st) (req_ip req) (now env) = true).
Proof.
  intros Hbody Hb Hgen.
  destruct (exceeded blacklistLimiter (blacklistHits st) (req_ip req) (now env))
    eqn:Hbl.
  - rewrite serve_blacklist_limited by assumption. by split.
  - rewrite serve_full;
      [|unfold rate_limited; by rewrite Hgen, Hbl, Hb
       |by apply blacklisted_not_documentation].
    split; [|discriminate].
    destruct (answer st env req) as [r|] eqn:Ha; [|discriminate].
    cbn [option_map]. intros [= Hs]. by destruct (answer_not_429 st env req r Ha).
Qed.

(** Past the general limiter no response outside the viewer is the
    rejection of the general limiter. *)
Lemma not_general_rejection st env req :
  body_parses req = true ->
  exceeded generalLimiter (generalHits st) (req_ip req) (now env) = false ->
  mount_matches (Under "/api-docs") (req_path req) = false ->
  fst (serve Full st env req)
  <> Some (mkResponse 429 (AsJson (message generalLimiter))).
Proof.
  intros Hbody Hgen Hmount.
  destruct (handled_by_get (req_method req)
            && route_matches "/api-docs.json" (req_path req)) eqn:Hjson.
  { rewrite serve_docs_json by assumption. discriminate. }
  assert (Hdoc : is_documentation req = false)
    by (unfold is_documentation; by rewrite Hmount, Hjson).
  destruct (is_blacklisted req
            && exceeded blacklistLimiter (blacklistHits st) (req_ip req) (now env))
    eqn:Hlim.
  - apply andb_prop in Hlim as [Hb Hl].
    rewrite serve_blacklist_limited by assumption. discriminate.
  - rewrite serve_full;
      [|unfold rate_limited; by rewrite Hgen, Hlim|assumption].
    intros Ha. by destruct (answer_not_429 st env req _ Ha).
Qed.

(** The requests of an address over a minute, with the counters of both
    limiters. *)
Lemma route_budget_run ip t1 trace : forall st,
  settled 60000 t1 (generalHits st) ip ->
  settled 60000 t1 (blacklistHits st) ip ->
  Forall (fun x => req_ip (snd x) = ip -> t1 <= now (fst x) < t1 + 60000) trace ->
  (hits_since 60000 t1 (generalHits st) ip
   + length (List.filter (counted_by_general ip) trace) <= 100)%nat ->
  forall i env req r,
    trace !! i = Some (env, req) ->
    fst (run Full st trace) !! i = Some r ->
    counted_by_route ip (env, req) = true ->
    (option_map status r = Some 429
     <-> (20 <= hits_since 60000 t1 (blacklistHits st) ip
                + length (List.filter (counted_by_route ip) (firstn i trace)))%nat).
Proof.
  induction trace as [|[env0 req0] rest IH]; intros st Hg Hb Hall Hmax i env req r Hi Hr Hc.
  { discriminate. }
  apply Forall_cons in Hall as [Ht Hrest]. cbn [fst snd] in Ht.
  destruct (general_window_step 60000 ip t1 st env0 req0 ltac:(by limits) Hg Ht)
    as (Hg' & Hgn & Hge).
  assert (Hadmit : counted_by_general ip (env0, req0) = true ->
                   exceeded generalLimiter (generalHits st) (req_ip req0) (now env0)
                   = false).
  { intros Hc0. rewrite (Hge Hc0). apply Nat.ltb_ge. limits.
    cbn [List.filter] in Hmax. rewrite Hc0 in Hmax. cbn [length] in Hmax. lia. }
  destruct (route_window_step 60000 ip t1 st env0 req0 ltac:(by limits) Hb Ht Hadmit)
    as (Hb' & Hbn & Hbe).
  cbn [run] in Hr.
  destruct (serve Full st env0 req0) as [r0 st'] eqn:Hserve. cbn [snd] in *.
  specialize (IH st' Hg' Hb' Hrest).
  destruct (run Full st' rest) as [rs st''] eqn:Hrun. cbn [fst] in *.
  destruct i as [|i].
  - cbn in Hi, Hr. injection Hi as -> ->. injection Hr as <-.
    cbn [firstn List.filter length]. rewrite Nat.add_0_r.
    pose proof Hc as Hc'. unfold counted_by_route in Hc'.
    apply andb_prop in Hc' as [Hcg Hroute]. cbn [snd] in Hroute.
    pose proof (proj1 (counted_by_general_cases ip env req) Hcg) as [_ Hbody].
    replace r0 with (fst (serve Full st env req)) by (by rewrite Hserve).
    rewrite (lookup_rejected st env req Hbody Hroute (Hadmit Hcg)).
    rewrite (Hbe Hc). limits.
    destruct (Nat.ltb_spec 20 (S (hits_since 60000 t1 (blacklistHits st) ip)));
      split; intros; (reflexivity || discriminate || lia).
  - cbn in Hi, Hr. cbn [firstn List.filter].
    rewrite (IH ltac:(cbn [List.filter] in Hmax;
                     destruct (counted_by_general ip (env0, req0));
                     cbn [length] in Hmax; lia) i env req r Hi Hr Hc).
    rewrite Hbn.
    destruct (counted_by_route ip (env0, req0)); cbn [length]; lia.
Qed.

(** The requests of an address over a quarter of an hour, with the
    counter of the general limiter. *)
Lemma general_budget_run ip t1 trace : forall st,
  settled 900000 t1 (generalHits st) ip ->
  Forall (fun x => req_ip (snd x) = ip -> t1 <= now (fst x) < t1 + 900000) trace ->
  forall i env req r,
    trace !! i = Some (env, req) ->
    fst (run Full st trace) !! i = Some r ->
    counted_by_general ip (env, req) = true ->
    let earlier :=
      (hits_since 900000 t1 (generalHits st) ip
       + length (List.filter (counted_by_general ip) (firstn i trace)))%nat in
    ((100 <= earlier)%nat ->
     r = Some (mkResponse 429 (AsJson (message generalLimiter))))
    /\ ((earlier < 100)%nat ->
        mount_matches (Under "/api-docs") (req_path req) = false ->
        r <> Some (mkResponse 429 (AsJson (message generalLimiter)))).
Proof.
  induction trace as [|[env0 req0] rest IH]; intros st Hg Hall i env req r Hi Hr Hc.
  { discriminate. }
  apply Forall_cons in Hall as [Ht Hrest]. cbn [fst snd] in Ht.
  destruct (general_window_step 900000 ip t1 st env0 req0 ltac:(by limits) Hg Ht)
    as (Hg' & Hgn & Hge).
  cbn [run] in Hr.
  destruct (serve Full st env0 req0) as [r0 st'] eqn:Hserve. cbn [snd] in *.
  specialize (IH st' Hg' Hrest).
  destruct (run Full st' rest) as [rs st''] eqn:Hrun. cbn [fst] in *.
  destruct i as [|i].
  - cbn in Hi, Hr. injection Hi as -> ->. injection Hr as <-.
    cbn [firstn List.filter length]. rewrite Nat.add_0_r.
    pose proof (proj1 (counted_by_general_cases ip env req) Hc) as [_ Hbody].
    replace r0 with (fst (serve Full st env req)) by (by rewrite Hserve).
    specialize (Hge Hc). limits. split.
    + intros Hk. apply serve_general_limited; [assumption|].
      rewrite Hge. apply Nat.ltb_lt. lia.
    + intros Hk Hmount. apply not_general_rejection; [assumption| |assumption].
      rewrite Hge. apply Nat.ltb_ge. lia.
  - cbn in Hi, Hr. cbn [firstn List.filter].
    specialize (IH i env req r Hi Hr Hc). cbv zeta in IH. rewrite Hgn in IH.
    replace (hits_since 900000 t1 (generalHits st) ip
             + length (if counted_by_general ip (env0, req0)
                       then (env0, req0)
                            :: List.filter (counted_by_general ip) (firstn i rest)
                       else List.filter (counted_by_general ip) (firstn i rest)))%nat
      with ((if counted_by_general ip (env0, req0) then 1 else 0)
            + hits_since 900000 t1 (generalHits st) ip
            + length (List.filter (counted_by_general ip) (firstn i rest)))%nat
      by (destruct (counted_by_general ip (env0, req0)); cbn [length]; lia).
    exact IH.
Qed.

(** *** When the windows end *)

Lemma hit_ends_by l (store : gmap string (nat * Z)) key t bound :
  (forall n reset, store !! key = Some (n, reset) -> reset <= bound + windowMs l) ->
  t <= bound ->
  snd (hit l store key t) <= bound + windowMs l.
Proof.
  intros Hstore Ht. unfold hit.
  destruct (store !! key) as [[n reset]|] eqn:E; cbn [snd]; [|lia].
  destruct (t <? reset); cbn [snd]; [by eapply Hstore|lia].
Qed.

Lemma serve_windows_end t st env req :
  windows_end_by t st -> now env <= t ->
  windows_end_by t (snd (serve Full st env req)).
Proof.
  intros H Hnow ip n reset.
  rewrite serve_full_generalHits, serve_full_blacklistHits. split.
  - destruct (body_parses req); [|apply H].
    rewrite lookup_insert. destruct (decide (req_ip req = ip)) as [<-|]; [|apply H].
    intros [= E]. pose proof (hit_ends_by generalLimiter (generalHits st)
      (req_ip req) (now env) t (fun n r => proj1 (H (req_ip req) n r)) Hnow) as Hh.
    rewrite E in Hh. exact Hh.
  - destruct (_ && _); [|apply H].
    rewrite lookup_insert. destruct (decide (req_ip req = ip)) as [<-|]; [|apply H].
    intros [= E]. pose proof (hit_ends_by blacklistLimiter (blacklistHits st)
      (req_ip req) (now env) t (fun n r => proj2 (H (req_ip req) n r)) Hnow) as Hh.
    rewrite E in Hh. exact Hh.
Qed.

Lemma run_windows_end t trace : forall st,
  windows_end_by t st ->
  Forall (fun x => now (fst x) <= t) trace ->
  windows_end_by t (snd (run Full st trace)).
Proof.
  induction trace as [|[env req] rest IH]; intros st H Hall; cbn [run];
    [assumption|].
  apply Forall_cons in Hall as [Hnow Hrest]. cbn [fst] in Hnow.
  pose proof (serve_windows_end t st env req H Hnow) as H'.
  destruct (serve Full st env req) as [r st']. cbn [snd] in H'.
  specialize (IH st' H' Hrest). by destruct (run Full st' rest).
Qed.

Lemma ended_window_admits l (store : gmap string (nat * Z)) key t :
  (1 <= max l)%nat ->
  (forall n reset, store !! key = Some (n, reset) -> reset <= t) ->
  exceeded l store key t = false.
Proof.
  intros Hmax Hstore. unfold exceeded, hit.
  destruct (store !! key) as [[n reset]|] eqn:E; cbn [fst].
  - specialize (Hstore n reset eq_refl).
    destruct (Z.ltb_spec t reset); [lia|]. cbn [fst]. apply Nat.ltb_ge. lia.
  - apply Nat.ltb_ge. lia.
Qed.

(** *** What a status says about the request *)

Lemma routes_cases st env req r :
  blacklistedNames st = configured_names ->
  routes st env req = Some r ->
  (is_health req = true /\ status r = 200)
  \/ (is_blacklisted req = true /\ status r = 200
      /\ forall value, query_get "name" (req_query req) = Some value ->
                       is_string value = true)
  \/ (is_blacklisted req = true /\ status r = 500
      /\ exists value, query_get "name" (req_query req) = Some value
                       /\ is_string value = false)
  \/ (is_health req = false /\ is_blacklisted req = false
      /\ path_decodes req = true /\ status r = 404)
  \/ (is_health req = false /\ is_blacklisted req = false
      /\ path_decodes req = false /\ status r = 500).
Proof.
  intros Hnames. unfold routes.
  destruct (is_health req); [intros [= <-]; by left|].
  destruct (is_blacklisted req).
  2: { unfold decode_param, path_decodes.
       destruct (uri_decodes (req_path req)); intros [= <-].
       - do 3 right; left. by repeat split.
       - do 4 right. by repeat split. }
  unfold blacklisted, reply. rewrite Hnames.
  destruct (query_get "name" (req_query req)) as [[s|items|fields]|];
    cbn [truthy negb fst].
  - destruct (negb (String.eqb s "")); cbn [negb fst].
    + rewrite some_same_name_string. intros [= <-].
      right; left. repeat split. by intros ? [= <-].
    + intros [= <-]. right; left. repeat split. by intros ? [= <-].
  - intros [= <-]. right; right; left. repeat split. by eexists.
  - intros [= <-]. right; right; left. repeat split. by eexists.
  - intros [= <-]. right; left. by repeat split.
Qed.

(** *** The listing and the lookup *)

Lemma configured_nonempty entry : In entry configured_names -> entry <> "".
Proof.
  unfold configured_names. cbn [In].
  intros H; repeat (destruct H as [<-|H]; [discriminate|]); contradiction.
Qed.

(** Outside the documentation, a response whose first member is
    [blacklistedNames] is the listing of the /blacklisted handler. *)
Lemma listing_shape v st env req code names more :
  v = Minimal \/ is_documentation req = false ->
  fst (serve v st env req)
  = Some (mkResponse code (AsJson (JObj (("blacklistedNames", names) :: more)))) ->
  is_blacklisted req = true
  /\ code = 200
  /\ names = JArr (List.map JStr (blacklistedNames st))
  /\ more = [("count", JNum (inject_Z (Z.of_nat (length (blacklistedNames st)))))].
Proof.
  intros Hv Hr.
  destruct (body_parses req) eqn:Hbody.
  2: { destruct (body_fails_cases req Hbody) as [e E].
       rewrite (serve_body_fault v st env req e E) in Hr. discriminate. }
  destruct (rate_limited v st env req) eqn:Hlim.
  { destruct v; [discriminate|]. unfold rate_limited in Hlim.
    destruct (exceeded generalLimiter (generalHits st) (req_ip req) (now env)) eqn:Hg.
    - rewrite serve_general_limited in Hr by assumption. discriminate.
    - cbn [orb] in Hlim. apply andb_prop in Hlim as [Hb Hbl].
      rewrite serve_blacklist_limited in Hr by assumption. discriminate. }
  rewrite serve_admitted, answer_parsed in Hr by assumption.
  unfold routes in Hr.
  destruct (is_health req); [discriminate|].
  destruct (is_blacklisted req).
  2: { destruct (decode_param _); discriminate. }
  split; [reflexivity|].
  unfold blacklisted, reply in Hr.
  destruct (negb _); cbn [fst] in Hr; [by injection Hr as <- <- <-|].
  destruct (some _ _); cbn [fst] in Hr; discriminate.
Qed.

End WithRuntime.
End TrafficFacts.

(** ** The contract *)

Import Js Http RateLimit Server Outline DateFacts Facts Traffic TrafficFacts.

Section Contract.
Context {rt : Runtime}.

(** C1 (as amended). For every request GET /blacklisted whose [name] is a
    non-empty string, which no rate limiter rejects and whose body, if it
    has one, [express.json()] accepts, the response is 200 with the
    submitted [name] unchanged and [isBlacklisted] true exactly when some
    entry of the ten-entry blacklist has the same lower-casing as the
    whole submitted name. *)
Theorem blacklisted_lookup_response v st env req s :
  reachable v st ->
  is_blacklisted req = true ->
  query_get "name" (req_query req) = Some (QStr s) ->
  s <> "" ->
  rate_limited v st env req = false ->
  body_parses req = true ->
  exists b : bool,
    fst (serve v st env req)
    = Some (mkResponse 200 (AsJson (JObj
        [("name", JStr s); ("isBlacklisted", JBool b)])))
    /\ length configured_names = 10%nat
    /\ (b = true <->
        exists entry, In entry configured_names
                      /\ toLowerCase entry = toLowerCase s).
Proof.
  intros Hst Hb Hq Hs Hlim Hbody.
  eexists. split; [|split; [reflexivity|]].
  - rewrite serve_admitted
      by (try assumption; right; by apply blacklisted_not_documentation).
    rewrite (answer_lookup st env req s) by assumption.
    rewrite (reachable_blacklist v st Hst). reflexivity.
  - apply existsb_same_name.
Qed.

(** C2 (as amended). For every request GET /blacklisted whose [name] is
    absent or empty, which no rate limiter rejects and whose body, if it
    has one, [express.json()] accepts, the response is 200 with the ten
    configured names in order and [count] 10. *)
Theorem blacklist_listing_response v st env req :
  reachable v st ->
  is_blacklisted req = true ->
  query_get "name" (req_query req) = None
  \/ query_get "name" (req_query req) = Some (QStr "") ->
  rate_limited v st env req = false ->
  body_parses req = true ->
  fst (serve v st env req)
  = Some (mkResponse 200 (AsJson (JObj
      [("blacklistedNames",
        JArr [JStr "John Smith"; JStr "Jane Doe"; JStr "Mike Johnson";
              JStr "Sarah Wilson"; JStr "Robert Brown"; JStr "Emily Davis";
              JStr "David Miller"; JStr "Lisa Garcia"; JStr "James Rodriguez";
              JStr "Maria Martinez"]);
       ("count", JNum 10)]))).
Proof.
  intros Hst Hb Hq Hlim Hbody.
  rewrite serve_admitted
    by (try assumption; right; by apply blacklisted_not_documentation).
  rewrite answer_listing; [|assumption|assumption|by destruct Hq as [-> | ->]].
  rewrite (reachable_blacklist v st Hst). reflexivity.
Qed.

(** C3. The blacklist never changes after startup: no handler writes it,
    so after any sequence of requests the process still holds the
    configured sequence. Every response that is a listing (the
    documentation's own responses apart) then carries that sequence, and
    its [count] is the length of the sequence it carries; and the
    requests for /blacklisted without a [name] that are let through get
    such a listing. *)
Theorem blacklist_is_constant v (trace : list (Env * Request)) :
  let st := snd (run v init trace) in
  blacklistedNames st = blacklistedNames init
  /\ length (blacklistedNames st) = length (blacklistedNames init)
  /\ (forall st0 env req e,
        blacklistedNames (snd (health st0 env req)) = blacklistedNames st0
        /\ blacklistedNames (snd (blacklisted st0 env req)) = blacklistedNames st0
        /\ blacklistedNames (snd (not_found st0 env req)) = blacklistedNames st0
        /\ blacklistedNames (snd (error_handler e st0 env req)) = blacklistedNames st0)
  /\ (forall env req code names more,
        v = Minimal \/ is_documentation req = false ->
        fst (serve v st env req)
        = Some (mkResponse code (AsJson (JObj
            (("blacklistedNames", names) :: more)))) ->
        exists items,
          names = JArr items
          /\ items = List.map JStr (blacklistedNames init)
          /\ more = [("count", JNum (inject_Z (Z.of_nat (length items))))])
  /\ (forall env req,
        is_blacklisted req = true ->
        truthy (query_get "name" (req_query req)) = false ->
        rate_limited v st env req = false ->
        body_parses req = true ->
        exists items,
          fst (serve v st env req)
          = Some (mkResponse 200 (AsJson (JObj
              [("blacklistedNames", JArr items);
               ("count", JNum (inject_Z (Z.of_nat (length items))))])))
          /\ items = List.map JStr (blacklistedNames init)).
Proof.
  intros st.
  assert (Hst : reachable v st) by (apply run_reachable; constructor).
  pose proof (reachable_blacklist v st Hst) as Hnames.
  change (blacklistedNames init) with configured_names.
  split; [assumption|]. split; [by rewrite Hnames|]. split; [|split].
  - intros st0 env req e.
    split; [apply health_keeps|].
    split; [apply blacklisted_keeps|].
    split; [apply not_found_keeps|apply error_handler_keeps].
  - intros env req code names more Hv Hr.
    destruct (listing_shape v st env req code names more Hv Hr)
      as (_ & _ & -> & ->).
    rewrite Hnames. eexists. split; [reflexivity|]. split; [reflexivity|].
    by rewrite length_map.
  - intros env req Hb Hq Hlim Hbody.
    rewrite serve_admitted
      by (try assumption; right; by apply blacklisted_not_documentation).
    rewrite answer_listing by assumption. rewrite Hnames.
    eexists. split; [|reflexivity]. by rewrite length_map.
Qed.

(** C4 (as amended). Every request gets one response. Outside the
    Swagger viewer's mount its status is 200, 404, 429 or 500 and never
    400, whatever the method, path, query and body. Under the mount
    /api-docs of [src/server.js] the response is 429, 500 or what the
    viewer sends, whose status is that package's own. *)
Theorem every_request_is_answered v st env req :
  exists r,
    fst (serve v st env req) = Some r
    /\ (v = Minimal \/ mount_matches (Under "/api-docs") (req_path req) = false ->
        (status r = 200 \/ status r = 404 \/ status r = 429 \/ status r = 500)
        /\ status r <> 400)
    /\ (v = Full ->
        mount_matches (Under "/api-docs") (req_path req) = true ->
        status r = 429 \/ status r = 500
        \/ r = swaggerUi (req_method req) (req_path req)).
Proof.
  assert (Hin : forall r : Response,
    status r = 200 \/ status r = 404 \/ status r = 429 \/ status r = 500 ->
    (status r = 200 \/ status r = 404 \/ status r = 429 \/ status r = 500)
    /\ status r <> 400) by (intros r Hr; split; [assumption|lia]).
  destruct v.
  { rewrite serve_minimal. destruct (answer_status st env req) as (r & -> & Hr).
    exists r. split; [reflexivity|]. split; [|discriminate].
    intros _. apply Hin. intuition. }
  destruct (body_parses req) eqn:Hbody.
  2: { destruct (body_fails_cases req Hbody) as [e E].
       rewrite (serve_body_fault Full st env req e E).
       eexists; split; [reflexivity|]. split; intros; [apply Hin|]; cbn; auto. }
  destruct (exceeded generalLimiter (generalHits st) (req_ip req) (now env)) eqn:Hgen.
  { rewrite serve_general_limited by assumption.
    eexists; split; [reflexivity|]. split; intros; [apply Hin|]; cbn; auto. }
  destruct (mount_matches (Under "/api-docs") (req_path req)) eqn:Hmount.
  { rewrite serve_docs_mount by assumption.
    eexists; split; [reflexivity|]. split; [intros [|]; discriminate|auto]. }
  destruct (handled_by_get (req_method req)
            && route_matches "/api-docs.json" (req_path req)) eqn:Hjson.
  { rewrite serve_docs_json by assumption.
    eexists; split; [reflexivity|]. split; [intros; apply Hin; cbn; auto|discriminate]. }
  destruct (rate_limited Full st env req) eqn:Hlim.
  - unfold rate_limited in Hlim. rewrite Hgen in Hlim. cbn [orb] in Hlim.
    apply andb_prop in Hlim as [Hb Hbl].
    rewrite serve_blacklist_limited by assumption.
    eexists; split; [reflexivity|]. split; [intros; apply Hin; cbn; auto|discriminate].
  - rewrite serve_full; [|assumption|].
    + destruct (answer_status st env req) as (r & -> & Hr). exists r.
      split; [reflexivity|]. split; [intros; apply Hin; intuition|discriminate].
    + unfold is_documentation. by rewrite Hmount, Hjson.
Qed.

(** C5 (as amended). Every request that no route and no mounted path
    takes, that the general rate limiter does not reject, whose body, if
    it has one, [express.json()] accepts and whose path [decodeURIComponent]
    accepts, is answered 404 with the error text and the three endpoint
    strings. *)
Theorem unmatched_request_not_found v st env req :
  unmatched v req = true ->
  rate_limited v st env req = false ->
  body_parses req = true ->
  path_decodes req = true ->
  fst (serve v st env req)
  = Some (mkResponse 404 (AsJson (JObj
      [("error", JStr "Endpoint not found");
       ("availableEndpoints",
        JArr [JStr "GET /health"; JStr "GET /blacklisted";
              JStr "GET /blacklisted?name=<name>"])]))).
Proof.
  unfold unmatched. intros [[Hh Hb]%andb_prop Hdoc]%andb_prop Hlim Hbody Hpath.
  apply negb_true_iff in Hh, Hb.
  rewrite serve_admitted; [by apply answer_unmatched|assumption|].
  destruct v; [by left|right]. by apply negb_true_iff.
Qed.

(** C6 (as amended). Every request GET /health that is not rate-limited
    and whose body, if it has one, [express.json()] accepts is answered
    200 with [status] "healthy" and the constant [service] string. The
    [timestamp] is the wall clock written as an ISO-8601 UTC instant with
    milliseconds: it reads back as the clock's time value. The [uptime]
    is the monotonic clock in seconds: it is not negative, and a later
    call does not report less. *)
Theorem health_response v st env req :
  is_health req = true ->
  rate_limited v st env req = false ->
  body_parses req = true ->
  fst (serve v st env req)
  = Some (mkResponse 200 (AsJson (JObj
      [("status", JStr "healthy");
       ("timestamp", JStr (toISOString (now env)));
       ("uptime", JNum (Z.of_N (uptime_ns env) # 1000000000));
       ("service", JStr "blacklisted-mock-api-server")])))
  /\ is_iso8601_utc_ms (toISOString (now env)) = true
  /\ instant_of_iso8601 (toISOString (now env)) = Some (now env)
  /\ (0 <= Z.of_N (uptime_ns env) # 1000000000)%Q
  /\ forall st' env' req',
       is_health req' = true ->
       rate_limited v st' env' req' = false ->
       body_parses req' = true ->
       (uptime_ns env <= uptime_ns env')%N ->
       fst (serve v st' env' req')
       = Some (mkResponse 200 (AsJson (JObj
           [("status", JStr "healthy");
            ("timestamp", JStr (toISOString (now env')));
            ("uptime", JNum (Z.of_N (uptime_ns env') # 1000000000));
            ("service", JStr "blacklisted-mock-api-server")])))
       /\ (Z.of_N (uptime_ns env) # 1000000000
           <= Z.of_N (uptime_ns env') # 1000000000)%Q.
Proof.
  intros Hh Hlim Hbody.
  split.
  { rewrite serve_admitted
      by (try assumption; right; by apply health_not_documentation).
    by apply answer_health. }
  split; [apply toISOString_valid, now_in_range|].
  split; [apply toISOString_instant, now_in_range|].
  split; [apply (uptime_nonneg env)|].
  intros st' env' req' Hh' Hlim' Hbody' Hlater. split.
  - rewrite serve_admitted
      by (try assumption; right; by apply health_not_documentation).
    by apply answer_health.
  - by apply (uptime_monotone env env').
Qed.


(** C8 (as amended). Among the requests that no rate limiter rejects, the
    response depends on the method, the path, the query and the body
    alone, whatever the time, the client and the requests served before,
    except for GET /health: its response depends on the clock as well,
    and two calls answer alike when they read the same clock. *)
Theorem response_determined_by_request v st1 st2 env1 env2 req1 req2 :
  reachable v st1 ->
  reachable v st2 ->
  req_method req1 = req_method req2 ->
  req_path req1 = req_path req2 ->
  req_query req1 = req_query req2 ->
  req_body req1 = req_body req2 ->
  rate_limited v st1 env1 req1 = false ->
  rate_limited v st2 env2 req2 = false ->
  (is_health req1 = false ->
   fst (serve v st1 env1 req1) = fst (serve v st2 env2 req2))
  /\ (is_health req1 = true ->
      env1 = env2 ->
      fst (serve v st1 env1 req1) = fst (serve v st2 env2 req2)).
Proof.
  intros Hst1 Hst2 Hm Hp Hq Hbody Hl1 Hl2.
  assert (Hcore : is_health req1 = false \/ env1 = env2 ->
                  answer st1 env1 req1 = answer st2 env2 req2).
  { intros Hcase.
    rewrite (answer_names st2 st1)
      by (by rewrite (reachable_blacklist v st1), (reachable_blacklist v st2)).
    unfold answer, routes, is_health, is_blacklisted, blacklisted, health, not_found.
    rewrite <- Hm, <- Hp, <- Hq, <- Hbody.
    destruct Hcase as [Hh| ->]; [|reflexivity].
    unfold is_health in Hh. by rewrite Hh. }
  assert (H : is_health req1 = false \/ env1 = env2 ->
              fst (serve v st1 env1 req1) = fst (serve v st2 env2 req2)).
  { intros Hcase. destruct v.
    { rewrite !serve_minimal. by apply Hcore. }
    destruct (body_parses req1) eqn:Hbody1.
    2: { destruct (body_fails_cases req1 Hbody1) as [e E].
         rewrite (serve_body_fault Full st1 env1 req1 e E).
         rewrite Hbody in E.
         by rewrite (serve_body_fault Full st2 env2 req2 e E). }
    assert (Hbody2 : body_parses req2 = true)
      by (unfold body_parses in *; by rewrite <- Hbody).
    pose proof Hl1 as Hg1. pose proof Hl2 as Hg2.
    unfold rate_limited in Hg1, Hg2.
    apply orb_false_elim in Hg1 as [Hg1 _]. apply orb_false_elim in Hg2 as [Hg2 _].
    destruct (mount_matches (Under "/api-docs") (req_path req1)) eqn:Hmount.
    { rewrite (serve_docs_mount st1 env1 req1) by assumption.
      rewrite (serve_docs_mount st2 env2 req2) by (by rewrite <- ?Hp).
      by rewrite Hm, Hp. }
    destruct (handled_by_get (req_method req1)
              && route_matches "/api-docs.json" (req_path req1)) eqn:Hjson.
    { rewrite (serve_docs_json st1 env1 req1) by assumption.
      by rewrite (serve_docs_json st2 env2 req2) by (by rewrite <- ?Hm, <- ?Hp). }
    rewrite (serve_full st1 env1 req1)
      by (try assumption; unfold is_documentation; by rewrite Hmount, Hjson).
    rewrite (serve_full st2 env2 req2)
      by (try assumption; unfold is_documentation;
          by rewrite <- Hm, <- Hp, Hmount, Hjson).
    by apply Hcore. }
  split; [intros Hh; apply H; by left|intros _ He; apply H; by right].
Qed.

(** C9. Rate limiting and documentation set aside, the two variants answer
    every request with the same status and the same body. *)
Theorem variants_agree st_full st_minimal env req :
  reachable Full st_full ->
  reachable Minimal st_minimal ->
  is_documentation req = false ->
  rate_limited Full st_full env req = false ->
  fst (serve Full st_full env req) = fst (serve Minimal st_minimal env req).
Proof.
  intros Hf Hm Hdoc Hlim.
  rewrite serve_full, serve_minimal by assumption.
  apply answer_names.
  by rewrite (reachable_blacklist Full st_full), (reachable_blacklist Minimal st_minimal).
Qed.

(** C10 (as amended). When [name] is supplied and is not a string, no
    rate limiter rejects the request and its body, if it has one,
    [express.json()] accepts, the lower-casing in the handler throws a
    TypeError and the request is answered 500 by the error handler. *)
Theorem non_string_name_is_500 v st env req value :
  reachable v st ->
  is_blacklisted req = true ->
  query_get "name" (req_query req) = Some value ->
  is_string value = false ->
  rate_limited v st env req = false ->
  body_parses req = true ->
  fst (blacklisted st env req)
  = Raise (TypeError "name.toLowerCase is not a function")
  /\ fst (serve v st env req)
     = Some (mkResponse 500 (AsJson (JObj
         [("error", JStr "Internal server error");
          ("message", JStr "name.toLowerCase is not a function")]))).
Proof.
  intros Hst Hb Hq Hv Hlim Hbody.
  pose proof (reachable_blacklist v st Hst) as Hnames.
  split.
  - unfold blacklisted.
    rewrite Hq, truthy_not_string, Hnames by assumption. cbn [negb].
    unfold configured_names.
    rewrite some_same_name_not_string by assumption. reflexivity.
  - rewrite serve_admitted
      by (try assumption; right; by apply blacklisted_not_documentation).
    by apply (answer_not_string st env req value "John Smith"
                (List.tl configured_names)).
Qed.

(** *** Further properties *)

(** Only a fault is logged: a request leaves the console as it was,
    unless it ends in the error handler, which prints the stack of the
    fault and answers 500. *)
Theorem only_faults_are_logged v st env req :
  (console (snd (serve v st env req)) = console st
   \/ exists e,
        fst (serve v st env req)
        = Some (mkResponse 500 (AsJson (JObj
            [("error", JStr "Internal server error");
             ("message", JStr (err_message e))])))
        /\ console (snd (serve v st env req)) = console st ++ [err_stack e])
  /\ forall r,
       fst (serve v st env req) = Some r ->
       status r <> 500 ->
       console (snd (serve v st env req)) = console st.
Proof.
  pose proof (route_logged (app v) env req (app_quiet v) None st) as H.
  cbn [logged] in H. fold (serve v st env req) in H.
  split; [exact H|].
  intros r Hr Hs. destruct H as [H|(e & He & _)]; [assumption|].
  rewrite Hr in He. injection He as ->. by destruct Hs.
Qed.

(** The three handlers have no side effect, and without limiters the
    process changes only by what the error handler prints. *)
Theorem handlers_have_no_side_effect st env req :
  snd (health st env req) = st
  /\ snd (blacklisted st env req) = st
  /\ snd (not_found st env req) = st
  /\ (snd (serve Minimal st env req) = st
      \/ exists e, snd (serve Minimal st env req) = console_error (err_stack e) st).
Proof.
  split; [reflexivity|]. split; [apply blacklisted_pure|]. split; [reflexivity|].
  apply serve_minimal_state.
Qed.

End Contract.

(** ** Beyond the contract: routes, counters and statuses *)

Section Coverage.
Context {rt : Runtime}.

(** What a status tells the client, the Swagger viewer aside. A 404 is a
    request that no route takes; a 500 is a request whose body does not
    parse, or one that no route takes and whose path does not decode, or
    one for /blacklisted whose [name] is not a string, and nothing else;
    a 429 comes from a limiter of [src/server.js]; a 200 comes from a
    route that matched and was let through, and on /blacklisted from a
    [name] that is absent or a string. *)
Theorem status_tells_the_cause v st env req r :
  reachable v st ->
  v = Minimal \/ mount_matches (Under "/api-docs") (req_path req) = false ->
  fst (serve v st env req) = Some r ->
  (status r = 404 ->
   unmatched v req = true /\ path_decodes req = true
   /\ body_parses req = true /\ rate_limited v st env req = false)
  /\ (status r = 500 ->
      body_parses req = false
      \/ (body_parses req = true /\ rate_limited v st env req = false
          /\ ((unmatched v req = true /\ path_decodes req = false)
              \/ (is_blacklisted req = true
                  /\ exists value, query_get "name" (req_query req) = Some value
                                   /\ is_string value = false))))
  /\ (status r = 429 ->
      v = Full /\ body_parses req = true /\ rate_limited v st env req = true)
  /\ (status r = 200 ->
      body_parses req = true
      /\ rate_limited v st env req = false
      /\ (is_health req = true
          \/ is_documentation req = true
          \/ (is_blacklisted req = true
              /\ forall value, query_get "name" (req_query req) = Some value ->
                               is_string value = true))).
Proof.
  intros Hst Hv Hr.
  pose proof (reachable_blacklist v st Hst) as Hnames.
  destruct (body_parses req) eqn:Hbody.
  2: { destruct (body_fails_cases req Hbody) as [e E].
       rewrite (serve_body_fault v st env req e E) in Hr. injection Hr as <-.
       cbn [status internal_error]. repeat split; try discriminate. by left. }
  match goal with
  | |- ?G =>
      assert (H : rate_limited v st env req = false ->
                  v = Minimal \/ is_documentation req = false ->
                  routes st env req = Some r ->
                  unmatched v req
                  = negb (is_health req) && negb (is_blacklisted req) ->
                  G)
  end.
  2: { destruct v.
       - apply H; [reflexivity|by left| |].
         + by rewrite <- answer_parsed, <- serve_minimal.
         + unfold unmatched. by rewrite andb_true_r.
       - destruct Hv as [|Hmount]; [discriminate|].
         destruct (exceeded generalLimiter (generalHits st) (req_ip req) (now env))
           eqn:Hg.
         { rewrite serve_general_limited in Hr by assumption. injection Hr as <-.
           assert (Hlim : rate_limited Full st env req = true)
             by (unfold rate_limited; by rewrite Hg).
           cbn [status]. repeat split; try discriminate; assumption. }
         destruct (handled_by_get (req_method req)
                   && route_matches "/api-docs.json" (req_path req)) eqn:Hjson.
         { rewrite serve_docs_json in Hr by assumption. injection Hr as <-.
           destruct (json_route_cases req Hjson) as (_ & _ & Hb).
           cbn [status]. repeat split; try discriminate.
           - unfold rate_limited. by rewrite Hg, Hb.
           - right; left. unfold is_documentation. by rewrite Hjson, orb_true_r. }
         assert (Hdoc : is_documentation req = false)
           by (unfold is_documentation; by rewrite Hmount, Hjson).
         destruct (rate_limited Full st env req) eqn:Hlim.
         + unfold rate_limited in Hlim. rewrite Hg in Hlim. cbn [orb] in Hlim.
           apply andb_prop in Hlim as [Hb Hbl].
           rewrite serve_blacklist_limited in Hr by assumption. injection Hr as <-.
           cbn [status]. repeat split; discriminate.
         + apply H; [done|by right| |].
           * by rewrite <- answer_parsed, <- serve_full.
           * unfold unmatched. by rewrite Hdoc, andb_true_r. }
  intros Hlim Hdoc Ha Hun.
  destruct (routes_cases st env req r Hnames Ha)
    as [[Hh Hs]|[(Hb & Hs & Hn)|[(Hb & Hs & Hn)|[(Hh & Hb & Hp & Hs)
                                                 |(Hh & Hb & Hp & Hs)]]]];
    rewrite Hs; repeat split; try discriminate; try assumption; auto.
  - right. repeat split; try assumption. by right.
  - rewrite Hun, Hh, Hb. reflexivity.
  - right. repeat split; try assumption. left. split; [|assumption].
    rewrite Hun, Hh, Hb. reflexivity.
Qed.

(** Listing and lookup agree: a name that the listing of /blacklisted
    returns is reported blacklisted when it is looked up as listed, at
    any later time of the process, unless a limiter rejects the lookup
    or the body of the lookup does not parse. *)
Theorem listed_names_are_blacklisted
    v st st' env env' listing lookup items total entry :
  reachable v st ->
  reachable v st' ->
  is_blacklisted listing = true ->
  fst (serve v st env listing)
  = Some (mkResponse 200 (AsJson (JObj
      [("blacklistedNames", JArr items); ("count", JNum total)]))) ->
  In (JStr entry) items ->
  is_blacklisted lookup = true ->
  query_get "name" (req_query lookup) = Some (QStr entry) ->
  rate_limited v st' env' lookup = false ->
  body_parses lookup = true ->
  fst (serve v st' env' lookup)
  = Some (mkResponse 200 (AsJson (JObj
      [("name", JStr entry); ("isBlacklisted", JBool true)]))).
Proof.
  intros Hst Hst' Hl Hr Hin Hb Hq Hlim Hbody.
  apply listing_shape in Hr as (_ & _ & [= ->] & _);
    [|right; by apply blacklisted_not_documentation].
  rewrite (reachable_blacklist v st Hst) in Hin.
  apply in_map_iff in Hin as (name & [= ->] & Hin).
  rewrite serve_admitted
    by (try assumption; right; by apply blacklisted_not_documentation).
  rewrite (answer_lookup st' env' lookup entry Hbody Hb Hq
             (configured_nonempty entry Hin)).
  rewrite (reachable_blacklist v st' Hst').
  replace (existsb _ configured_names) with true; [reflexivity|].
  symmetry. apply existsb_same_name. by exists entry.
Qed.

(** Of the query only [name] is read, and of the body only whether
    [express.json()] accepts it: two requests with the same method, path
    and client address and the same [name], whose bodies are both
    accepted or both refused with the same error, are served alike, in
    the response and in what they leave behind, whatever other parameters
    they carry. *)
Theorem only_name_is_read v st env req1 req2 :
  same_view req1 req2 ->
  v = Minimal \/ mount_matches (Under "/api-docs") (req_path req1) = false ->
  serve v st env req1 = serve v st env req2.
Proof.
  intros Hv _. unfold serve. by apply route_reads; [apply app_reads|].
Qed.

(** What each limiter counts in [src/server.js]: the general limiter
    counts every request that [express.json()] lets pass, the ones it
    rejects itself too; the limiter of /blacklisted counts the requests
    for that route that the general limiter let pass, and no other. A
    request whose body does not parse goes to the error handler and is
    counted by neither. The other file keeps no count. *)
Theorem limiters_count_by_route st env req :
  generalHits (snd (serve Full st env req))
  = (if body_parses req
     then <[req_ip req := hit generalLimiter (generalHits st) (req_ip req) (now env)]>
            (generalHits st)
     else generalHits st)
  /\ blacklistHits (snd (serve Full st env req))
     = (if body_parses req
           && negb (exceeded generalLimiter (generalHits st) (req_ip req) (now env))
           && is_blacklisted req
        then <[req_ip req :=
                 hit blacklistLimiter (blacklistHits st) (req_ip req) (now env)]>
               (blacklistHits st)
        else blacklistHits st)
  /\ generalHits (snd (serve Minimal st env req)) = generalHits st
  /\ blacklistHits (snd (serve Minimal st env req)) = blacklistHits st.
Proof.
  split; [apply serve_full_generalHits|].
  split; [apply serve_full_blacklistHits|].
  destruct (serve_minimal_state st env req) as [->|[e ->]]; by split.
Qed.


(** The allowance of /blacklisted in [src/server.js]. Take any sequence
    of requests, from any addresses, in which the requests of one address
    fall within a minute at whose start the address has no open window,
    and in which no more than a hundred of its requests have a body that
    parses. A request of the address for /blacklisted whose body parses
    is then answered 429 exactly when twenty such requests of the address
    come before it in the sequence. *)
Theorem blacklist_budget_per_window st ip t1 trace :
  closed_at t1 (generalHits st) ip ->
  closed_at t1 (blacklistHits st) ip ->
  Forall (fun x => req_ip (snd x) = ip -> t1 <= now (fst x) < t1 + 60000) trace ->
  (length (List.filter (counted_by_general ip) trace) <= 100)%nat ->
  forall i env req r,
    trace !! i = Some (env, req) ->
    fst (run Full st trace) !! i = Some r ->
    req_ip req = ip ->
    is_blacklisted req = true ->
    body_parses req = true ->
    (option_map status r = Some 429
     <-> (20 <= length (List.filter (counted_by_route ip) (firstn i trace)))%nat).
Proof.
  intros Hg Hb Hall Hmax i env req r Hi Hr Hip Hroute Hbody.
  destruct (closed_settled 60000 t1 _ ip Hg ltac:(lia)) as [Hgs Hgn].
  destruct (closed_settled 60000 t1 _ ip Hb ltac:(lia)) as [Hbs Hbn].
  assert (Hc : counted_by_route ip (env, req) = true).
  { unfold counted_by_route. cbn [snd]. rewrite Hroute, andb_true_r.
    by apply counted_by_general_cases. }
  rewrite (route_budget_run ip t1 trace st Hgs Hbs Hall
             ltac:(by rewrite Hgn) i env req r Hi Hr Hc).
  by rewrite Hbn.
Qed.

(** The general allowance of [src/server.js]. Take any sequence of
    requests, from any addresses, in which the requests of one address
    fall within a quarter of an hour at whose start the address has no
    open window. A request of the address whose body parses is answered
    429 with the general message when a hundred such requests of the
    address come before it in the sequence, and, outside the Swagger
    viewer, only then. *)
Theorem general_budget_per_window st ip t1 trace :
  closed_at t1 (generalHits st) ip ->
  Forall (fun x => req_ip (snd x) = ip -> t1 <= now (fst x) < t1 + 900000) trace ->
  forall i env req r,
    trace !! i = Some (env, req) ->
    fst (run Full st trace) !! i = Some r ->
    req_ip req = ip ->
    body_parses req = true ->
    let earlier := length (List.filter (counted_by_general ip) (firstn i trace)) in
    ((100 <= earlier)%nat ->
     r = Some (mkResponse 429 (AsJson (JObj
           [("error", JStr "Too many requests from this IP");
            ("retryAfter", JStr "15 minutes")]))))
    /\ ((earlier < 100)%nat ->
        mount_matches (Under "/api-docs") (req_path req) = false ->
        r <> Some (mkResponse 429 (AsJson (JObj
               [("error", JStr "Too many requests from this IP");
                ("retryAfter", JStr "15 minutes")])))).
Proof.
  intros Hg Hall i env req r Hi Hr Hip Hbody.
  destruct (closed_settled 900000 t1 _ ip Hg ltac:(lia)) as [Hgs Hgn].
  assert (Hc : counted_by_general ip (env, req) = true)
    by (by apply counted_by_general_cases).
  pose proof (general_budget_run ip t1 trace st Hgs Hall i env req r Hi Hr Hc) as H.
  cbv zeta in H. rewrite Hgn in H. exact H.
Qed.

(** No address is kept out for longer than the windows last: a request
    that arrives a quarter of an hour after every request served so far
    is not rejected by a limiter, whatever was sent before. *)
Theorem allowance_returns trace t env req :
  Forall (fun x => now (fst x) <= t) trace ->
  t + windowMs generalLimiter <= now env ->
  rate_limited Full (snd (run Full init trace)) env req = false.
Proof.
  intros Hall Hnow.
  assert (H : windows_end_by t (snd (run Full init trace))).
  { apply run_windows_end; [|assumption]. intros ip n reset.
    cbn [init generalHits blacklistHits]. rewrite !lookup_empty. by split. }
  unfold rate_limited.
  rewrite (ended_window_admits generalLimiter), (ended_window_admits blacklistLimiter).
  - by rewrite andb_false_r.
  - cbn. lia.
  - intros n reset E. apply (H (req_ip req) n reset) in E.
    change (windowMs generalLimiter) with 900000 in Hnow.
    change (windowMs blacklistLimiter) with 60000 in E. lia.
  - cbn. lia.
  - intros n reset E. apply (H (req_ip req) n reset) in E. lia.
Qed.

(** The description of the API is served by the route of
    [src/server.js] for /api-docs.json, which the viewer mounted at
    /api-docs does not take over: when the body of the request, if it has
    one, parses, the answer is 200 with the document unless the general
    limiter rejects the request, and the allowance of /blacklisted is not
    touched. The file without documentation answers the same request
    404. *)
Theorem api_docs_json_answer st env req :
  handled_by_get (req_method req) && route_matches "/api-docs.json" (req_path req)
  = true ->
  body_parses req = true ->
  (exceeded generalLimiter (generalHits st) (req_ip req) (now env) = false ->
   fst (serve Full st env req) = Some (mkResponse 200 (AsJson swaggerSpec)))
  /\ blacklistHits (snd (serve Full st env req)) = blacklistHits st
  /\ fst (serve Minimal st env req)
     = Some (mkResponse 404 (AsJson (JObj
         [("error", JStr "Endpoint not found");
          ("availableEndpoints",
           JArr [JStr "GET /health"; JStr "GET /blacklisted";
                 JStr "GET /blacklisted?name=<name>"])]))).
Proof.
  intros Hjson Hbody. destruct (json_route_cases req Hjson) as (Hmount & Hh & Hb).
  split; [intros Hg; by apply serve_docs_json|]. split.
  - rewrite serve_full_blacklistHits, Hb. by rewrite andb_false_r.
  - rewrite serve_minimal.
    apply answer_unmatched; try assumption. by apply json_route_decodes.
Qed.

End Coverage.

(** ** The contract on concrete requests *)

Import Scenario.
#[local] Existing Instance ascii_runtime.

(** The scenarios of the specification. *)
Example scenario_lower_case :
  fst (serve Full init morning (get "/blacklisted" [("name", QStr "john smith")]))
  = Some (mkResponse 200 (AsJson (JObj
      [("name", JStr "john smith"); ("isBlacklisted", JBool true)]))).
Proof. reflexivity. Qed.

Example scenario_upper_case :
  fst (serve Minimal init morning (get "/blacklisted" [("name", QStr "JOHN SMITH")]))
  = Some (mkResponse 200 (AsJson (JObj
      [("name", JStr "JOHN SMITH"); ("isBlacklisted", JBool true)]))).
Proof. reflexivity. Qed.

Example scenario_unknown_name :
  fst (serve Full init morning (get "/blacklisted" [("name", QStr "Random Person")]))
  = Some (mkResponse 200 (AsJson (JObj
      [("name", JStr "Random Person"); ("isBlacklisted", JBool false)]))).
Proof. reflexivity. Qed.

(** A part of a blacklisted name is not a match. *)
Example scenario_part_of_a_name :
  fst (serve Full init morning (get "/blacklisted" [("name", QStr "John")]))
  = Some (mkResponse 200 (AsJson (JObj
      [("name", JStr "John"); ("isBlacklisted", JBool false)]))).
Proof. reflexivity. Qed.

Example scenario_health :
  fst (serve Full init morning (get "/health" []))
  = Some (mkResponse 200 (AsJson (JObj
      [("status", JStr "healthy");
       ("timestamp", JStr "2025-11-19T06:47:29.824Z");
       ("uptime", JNum (120500000000 # 1000000000));
       ("service", JStr "blacklisted-mock-api-server")]))).
Proof. reflexivity. Qed.

(** A HEAD request and a path in another case with a trailing slash
    reach the same routes. *)
Example scenario_head_and_case :
  option_map status
    (fst (serve Minimal init morning (mkRequest HEAD "/Health/" [] NoBody client)))
  = Some 200
  /\ option_map status
       (fst (serve Minimal init morning (mkRequest POST "/health" [] NoBody client)))
     = Some 404.
Proof. split; reflexivity. Qed.

(** The window of the limiter: the 21st lookup of a minute is refused,
    and one that comes a minute after the first is served again. *)
Example scenario_window_elapses :
  let req := get "/blacklisted" [] in
  let st := snd (run Full init (burst 21 morning req)) in
  List.map (option_map status) (fst (run Full init (burst 21 morning req)))
  = replicate 20 (Some 200) ++ [Some 429]
  /\ option_map status
       (fst (serve Full st (at_time (now morning + 60000) 180500000000) req))
     = Some 200.
Proof. split; vm_compute; reflexivity. Qed.

(** A body that is not JSON is answered by the error handler, with the
    message of the parser; the limiters do not see the request. *)
Example scenario_body_not_json :
  serve Full init morning
    (mkRequest POST "/blacklisted" [] (Unparsable bad_json) client)
  = (Some (mkResponse 500 (AsJson (JObj
       [("error", JStr "Internal server error");
        ("message", JStr "Unexpected token b in JSON at position 1")]))),
     console_error "SyntaxError: Unexpected token b in JSON at position 1" init).
Proof. reflexivity. Qed.

(** A body that parses changes nothing: no handler reads it. *)
Example scenario_body_json :
  fst (serve Full init morning
         (mkRequest GET "/blacklisted" [("name", QStr "jane doe")]
                    (Parsed (JObj [("name", JStr "nobody")])) client))
  = Some (mkResponse 200 (AsJson (JObj
      [("name", JStr "jane doe"); ("isBlacklisted", JBool true)]))).
Proof. reflexivity. Qed.

(** Which paths decode. *)
Example scenario_paths :
  uri_decodes "/caf%C3%A9" = true
  /\ uri_decodes "/%E0%A4%A" = false
  /\ uri_decodes "/100%" = false
  /\ uri_decodes "/%C0%AF" = false
  /\ uri_decodes "/%ED%A0%80" = false
  /\ uri_decodes "/%F0%9F%98%80" = true
  /\ option_map status (fst (serve Minimal init morning (get "/caf%C3%A9" [])))
     = Some 404
  /\ option_map status (fst (serve Minimal init morning (get "/health%" [])))
     = Some 500.
Proof. repeat split; reflexivity. Qed.

(** The first and the last time value, and the last day before year 0. *)
Example scenario_timestamps :
  toISOString (- maxTime) = "-271821-04-20T00:00:00.000Z"
  /\ toISOString maxTime = "+275760-09-13T00:00:00.000Z"
  /\ toISOString (-62167219200001) = "-000001-12-31T23:59:59.999Z"
  /\ toISOString 951782400000 = "2000-02-29T00:00:00.000Z"
  /\ instant_of_iso8601 "2000-02-29T00:00:00.000Z" = Some 951782400000
  /\ instant_of_iso8601 "1900-02-29T00:00:00.000Z" = None
  /\ instant_of_iso8601 "2025-11-19T06:47:29Z" = None.
Proof. repeat split; reflexivity. Qed.

(** *** C1 *)

Lemma blacklisted_lookup_response_witness :
  let req := get "/blacklisted" [("name", QStr "john smith")] in
  reachable Full init
  /\ is_blacklisted req = true
  /\ query_get "name" (req_query req) = Some (QStr "john smith")
  /\ "john smith" <> ""
  /\ rate_limited Full init morning req = false
  /\ body_parses req = true
  /\ exists b : bool,
       fst (serve Full init morning req)
       = Some (mkResponse 200 (AsJson (JObj
           [("name", JStr "john smith"); ("isBlacklisted", JBool b)])))
       /\ length configured_names = 10%nat
       /\ (b = true <->
           exists entry, In entry configured_names
                         /\ toLowerCase entry = toLowerCase "john smith").
Proof.
  intros req.
  assert (H1 : reachable Full init) by constructor.
  assert (H2 : is_blacklisted req = true) by reflexivity.
  assert (H3 : query_get "name" (req_query req) = Some (QStr "john smith"))
    by reflexivity.
  assert (H4 : "john smith" <> "") by discriminate.
  assert (H5 : rate_limited Full init morning req = false) by reflexivity.
  assert (H6 : body_parses req = true) by reflexivity.
  repeat (split; [assumption|]).
  exact (blacklisted_lookup_response Full init morning req "john smith"
           H1 H2 H3 H4 H5 H6).
Defined.

(** In [src/server.js] the 21st lookup that one address sends within a
    minute is answered 429 by [blacklistLimiter], not 200; and in both
    files a lookup that carries a body that is not JSON is answered 500
    by the error handler before the handler runs. *)
Lemma blacklisted_lookup_not_served :
  let req := get "/blacklisted" [("name", QStr "John Smith")] in
  let st := snd (run Full init (burst 20 morning req)) in
  let env := after_burst 20 morning in
  reachable Full st
  /\ is_blacklisted req = true
  /\ query_get "name" (req_query req) = Some (QStr "John Smith")
  /\ fst (serve Full st env req)
     = Some (mkResponse 429 (AsJson (JObj
         [("error", JStr "Too many blacklist requests from this IP");
          ("retryAfter", JStr "1 minute")])))
  /\ is_blacklisted (with_bad_body req) = true
  /\ query_get "name" (req_query (with_bad_body req)) = Some (QStr "John Smith")
  /\ rate_limited Full init morning (with_bad_body req) = false
  /\ fst (serve Full init morning (with_bad_body req))
     = Some (mkResponse 500 (AsJson (JObj
         [("error", JStr "Internal server error");
          ("message", JStr "Unexpected token b in JSON at position 1")])))
  /\ fst (serve Minimal init morning (with_bad_body req))
     = fst (serve Full init morning (with_bad_body req)).
Proof.
  intros req st env. split; [apply run_reachable; constructor|].
  split; [reflexivity|]. split; [reflexivity|].
  split; [vm_compute; reflexivity|].
  repeat split; reflexivity.
Qed.

(** *** C2 *)

Lemma blacklist_listing_response_witness :
  let req := get "/blacklisted" [("name", QStr "")] in
  reachable Minimal init
  /\ is_blacklisted req = true
  /\ (query_get "name" (req_query req) = None
      \/ query_get "name" (req_query req) = Some (QStr ""))
  /\ rate_limited Minimal init morning req = false
  /\ body_parses req = true
  /\ fst (serve Minimal init morning req)
     = Some (mkResponse 200 (AsJson (JObj
         [("blacklistedNames",
           JArr [JStr "John Smith"; JStr "Jane Doe"; JStr "Mike Johnson";
                 JStr "Sarah Wilson"; JStr "Robert Brown"; JStr "Emily Davis";
                 JStr "David Miller"; JStr "Lisa Garcia"; JStr "James Rodriguez";
                 JStr "Maria Martinez"]);
          ("count", JNum 10)]))).
Proof.
  intros req.
  assert (H1 : reachable Minimal init) by constructor.
  assert (H2 : is_blacklisted req = true) by reflexivity.
  assert (H3 : query_get "name" (req_query req) = None
               \/ query_get "name" (req_query req) = Some (QStr ""))
    by (right; reflexivity).
  assert (H4 : rate_limited Minimal init morning req = false) by reflexivity.
  assert (H5 : body_parses req = true) by reflexivity.
  repeat (split; [assumption|]).
  exact (blacklist_listing_response Minimal init morning req H1 H2 H3 H4 H5).
Defined.

(** In [src/server.js] the 21st listing that one address asks for within
    a minute is answered 429 and carries no list; and in both files a
    request for the listing that carries a body that is not JSON is
    answered 500. *)
Lemma blacklist_listing_not_served :
  let req := get "/blacklisted" [] in
  let st := snd (run Full init (burst 20 morning req)) in
  let env := after_burst 20 morning in
  reachable Full st
  /\ is_blacklisted req = true
  /\ query_get "name" (req_query req) = None
  /\ fst (serve Full st env req)
     = Some (mkResponse 429 (AsJson (JObj
         [("error", JStr "Too many blacklist requests from this IP");
          ("retryAfter", JStr "1 minute")])))
  /\ is_blacklisted (with_bad_body req) = true
  /\ query_get "name" (req_query (with_bad_body req)) = None
  /\ rate_limited Full init morning (with_bad_body req) = false
  /\ fst (serve Full init morning (with_bad_body req))
     = Some (mkResponse 500 (AsJson (JObj
         [("error", JStr "Internal server error");
          ("message", JStr "Unexpected token b in JSON at position 1")])))
  /\ fst (serve Minimal init morning (with_bad_body req))
     = fst (serve Full init morning (with_bad_body req)).
Proof.
  intros req st env. split; [apply run_reachable; constructor|].
  split; [reflexivity|]. split; [reflexivity|].
  split; [vm_compute; reflexivity|].
  repeat split; reflexivity.
Qed.

(** *** C4 *)

(** In [src/server.js] a GET of /api-docs is answered by the viewer, which
    redirects it to /api-docs/ with 301: a status outside the four. *)
Lemma api_docs_redirected :
  let req := get "/api-docs" [] in
  fst (serve Full init morning req)
  = Some (mkResponse 301 (AsText "Redirecting to /api-docs/"))
  /\ forall r,
       fst (serve Full init morning req) = Some r ->
       ~ (status r = 200 \/ status r = 404 \/ status r = 429 \/ status r = 500).
Proof.
  intros req. split; [reflexivity|].
  intros r Hr. vm_compute in Hr. injection Hr as <-.
  cbn [status]. lia.
Qed.

(** *** C5 *)

Lemma unmatched_request_not_found_witness :
  let req := get "/nonexistent" [] in
  unmatched Full req = true
  /\ rate_limited Full init morning req = false
  /\ body_parses req = true
  /\ path_decodes req = true
  /\ fst (serve Full init morning req)
     = Some (mkResponse 404 (AsJson (JObj
         [("error", JStr "Endpoint not found");
          ("availableEndpoints",
           JArr [JStr "GET /health"; JStr "GET /blacklisted";
                 JStr "GET /blacklisted?name=<name>"])]))).
Proof.
  intros req.
  assert (H1 : unmatched Full req = true) by reflexivity.
  assert (H2 : rate_limited Full init morning req = false) by reflexivity.
  assert (H3 : body_parses req = true) by reflexivity.
  assert (H4 : path_decodes req = true) by reflexivity.
  repeat (split; [assumption|]).
  exact (unmatched_request_not_found Full init morning req H1 H2 H3 H4).
Defined.

(** In [src/server.js] the 101st request that one address sends within
    fifteen minutes is answered 429 by [generalLimiter], whatever its
    path. In both files a request for a path that no route takes is
    answered 500 when its path does not decode (GET /%E0%A4%A) and when
    its body is not JSON (POST /health). *)
Lemma unmatched_request_not_404 :
  let req := get "/nonexistent" [] in
  let st := snd (run Full init (burst 100 morning req)) in
  let env := after_burst 100 morning in
  let escaped := get "/%E0%A4%A" [] in
  let posted := mkRequest POST "/health" [] (Unparsable bad_json) client in
  reachable Full st
  /\ unmatched Full req = true
  /\ fst (serve Full st env req)
     = Some (mkResponse 429 (AsJson (JObj
         [("error", JStr "Too many requests from this IP");
          ("retryAfter", JStr "15 minutes")])))
  /\ unmatched Full escaped = true
  /\ unmatched Minimal escaped = true
  /\ rate_limited Full init morning escaped = false
  /\ serve Minimal init morning escaped
     = (Some (mkResponse 500 (AsJson (JObj
          [("error", JStr "Internal server error");
           ("message", JStr "Failed to decode param '/%E0%A4%A'")]))),
        console_error "URIError: URI malformed" init)
  /\ fst (serve Full init morning escaped) = fst (serve Minimal init morning escaped)
  /\ unmatched Full posted = true
  /\ unmatched Minimal posted = true
  /\ rate_limited Full init morning posted = false
  /\ fst (serve Minimal init morning posted)
     = Some (mkResponse 500 (AsJson (JObj
         [("error", JStr "Internal server error");
          ("message", JStr "Unexpected token b in JSON at position 1")])))
  /\ fst (serve Full init morning posted) = fst (serve Minimal init morning posted).
Proof.
  intros req st env escaped posted. split; [apply run_reachable; constructor|].
  split; [reflexivity|].
  split; [vm_compute; reflexivity|].
  repeat split; reflexivity.
Qed.

(** *** C6 *)

Lemma health_response_witness :
  let req := get "/health" [] in
  is_health req = true
  /\ rate_limited Full init morning req = false
  /\ body_parses req = true
  /\ fst (serve Full init morning req)
     = Some (mkResponse 200 (AsJson (JObj
         [("status", JStr "healthy");
          ("timestamp", JStr (toISOString (now morning)));
          ("uptime", JNum (Z.of_N (uptime_ns morning) # 1000000000));
          ("service", JStr "blacklisted-mock-api-server")])))
  /\ is_iso8601_utc_ms (toISOString (now morning)) = true
  /\ instant_of_iso8601 (toISOString (now morning)) = Some (now morning)
  /\ (0 <= Z.of_N (uptime_ns morning) # 1000000000)%Q
  /\ forall st' env' req',
       is_health req' = true ->
       rate_limited Full st' env' req' = false ->
       body_parses req' = true ->
       (uptime_ns morning <= uptime_ns env')%N ->
       fst (serve Full st' env' req')
       = Some (mkResponse 200 (AsJson (JObj
           [("status", JStr "healthy");
            ("timestamp", JStr (toISOString (now env')));
            ("uptime", JNum (Z.of_N (uptime_ns env') # 1000000000));
            ("service", JStr "blacklisted-mock-api-server")])))
       /\ (Z.of_N (uptime_ns morning) # 1000000000
           <= Z.of_N (uptime_ns env') # 1000000000)%Q.
Proof.
  intros req.
  assert (H1 : is_health req = true) by reflexivity.
  assert (H2 : rate_limited Full init morning req = false) by reflexivity.
  assert (H3 : body_parses req = true) by reflexivity.
  repeat (split; [assumption|]).
  exact (health_response Full init morning req H1 H2 H3).
Defined.

(** In both files a GET of /health that carries a body that is not JSON
    is answered 500 by the error handler, not 200. *)
Lemma health_request_not_200 :
  let req := with_bad_body (get "/health" []) in
  is_health req = true
  /\ rate_limited Full init morning req = false
  /\ fst (serve Full init morning req)
     = Some (mkResponse 500 (AsJson (JObj
         [("error", JStr "Internal server error");
          ("message", JStr "Unexpected token b in JSON at position 1")])))
  /\ fst (serve Minimal init morning req) = fst (serve Full init morning req).
Proof. repeat split; reflexivity. Qed.

(** *** C7 *)


(** *** C8 *)

Lemma response_determined_by_request_witness :
  let req1 :=
    mkRequest GET "/blacklisted" [("name", QStr "Jane Doe")] NoBody client in
  let req2 :=
    mkRequest GET "/blacklisted" [("name", QStr "Jane Doe")] NoBody "198.51.100.9" in
  let st2 := snd (serve Full init morning (get "/health" [])) in
  let env2 := a_second_later morning in
  reachable Full init
  /\ reachable Full st2
  /\ req_method req1 = req_method req2
  /\ req_path req1 = req_path req2
  /\ req_query req1 = req_query req2
  /\ req_body req1 = req_body req2
  /\ rate_limited Full init morning req1 = false
  /\ rate_limited Full st2 env2 req2 = false
  /\ (is_health req1 = false ->
      fst (serve Full init morning req1) = fst (serve Full st2 env2 req2))
  /\ (is_health req1 = true ->
      morning = env2 ->
      fst (serve Full init morning req1) = fst (serve Full st2 env2 req2)).
Proof.
  intros req1 req2 st2 env2.
  assert (H1 : reachable Full init) by constructor.
  assert (H2 : reachable Full st2) by (apply reachable_step; constructor).
  assert (H3 : req_method req1 = req_method req2) by reflexivity.
  assert (H4 : req_path req1 = req_path req2) by reflexivity.
  assert (H5 : req_query req1 = req_query req2) by reflexivity.
  assert (H6 : req_body req1 = req_body req2) by reflexivity.
  assert (H7 : rate_limited Full init morning req1 = false) by reflexivity.
  assert (H8 : rate_limited Full st2 env2 req2 = false) by (vm_compute; reflexivity).
  repeat (split; [assumption|]).
  exact (response_determined_by_request Full init st2 morning env2 req1 req2
           H1 H2 H3 H4 H5 H6 H7 H8).
Defined.

(** Two identical requests GET /health a second apart get different
    bodies, in both variants; in [src/server.js] the first and the 21st
    of the same lookups get different statuses; and two requests with
    the same method, path and query get different statuses when the body
    of one is not JSON. *)
Lemma identical_requests_differ :
  let req := get "/health" [] in
  let lookup := get "/blacklisted" [("name", QStr "Jane Doe")] in
  let st := snd (run Full init (burst 20 morning lookup)) in
  fst (serve Minimal init morning req)
  <> fst (serve Minimal init (a_second_later morning) req)
  /\ fst (serve Full init morning req)
     <> fst (serve Full init (a_second_later morning) req)
  /\ reachable Full st
  /\ option_map status (fst (serve Full init morning lookup)) = Some 200
  /\ option_map status (fst (serve Full st (after_burst 20 morning) lookup))
     = Some 429
  /\ req_method (with_bad_body lookup) = req_method lookup
  /\ req_path (with_bad_body lookup) = req_path lookup
  /\ req_query (with_bad_body lookup) = req_query lookup
  /\ rate_limited Minimal init morning (with_bad_body lookup) = false
  /\ rate_limited Full init morning (with_bad_body lookup) = false
  /\ option_map status (fst (serve Minimal init morning lookup)) = Some 200
  /\ option_map status (fst (serve Minimal init morning (with_bad_body lookup)))
     = Some 500
  /\ option_map status (fst (serve Full init morning (with_bad_body lookup)))
     = Some 500.
Proof.
  intros req lookup st.
  split; [vm_compute; discriminate|].
  split; [vm_compute; discriminate|].
  split; [apply run_reachable; constructor|].
  split; [vm_compute; reflexivity|].
  split; [vm_compute; reflexivity|].
  repeat split; reflexivity.
Qed.

(** *** C9 *)

Lemma variants_agree_witness :
  let req := get "/blacklisted" [("name", QStr "Lisa Garcia")] in
  let st_full := snd (serve Full init morning (get "/health" [])) in
  reachable Full st_full
  /\ reachable Minimal init
  /\ is_documentation req = false
  /\ rate_limited Full st_full (a_second_later morning) req = false
  /\ fst (serve Full st_full (a_second_later morning) req)
     = fst (serve Minimal init (a_second_later morning) req).
Proof.
  intros req st_full.
  assert (H1 : reachable Full st_full) by (apply reachable_step; constructor).
  assert (H2 : reachable Minimal init) by constructor.
  assert (H3 : is_documentation req = false) by reflexivity.
  assert (H4 : rate_limited Full st_full (a_second_later morning) req = false)
    by (vm_compute; reflexivity).
  repeat (split; [assumption|]).
  exact (variants_agree st_full init (a_second_later morning) req H1 H2 H3 H4).
Defined.

(** *** C10 *)

Lemma non_string_name_is_500_witness :
  let value := QArr [QStr "John Smith"; QStr "Jane Doe"] in
  let req := get "/blacklisted" [("name", value)] in
  reachable Full init
  /\ is_blacklisted req = true
  /\ query_get "name" (req_query req) = Some value
  /\ is_string value = false
  /\ rate_limited Full init morning req = false
  /\ body_parses req = true
  /\ fst (blacklisted init morning req)
     = Raise (TypeError "name.toLowerCase is not a function")
  /\ fst (serve Full init morning req)
     = Some (mkResponse 500 (AsJson (JObj
         [("error", JStr "Internal server error");
          ("message", JStr "name.toLowerCase is not a function")]))).
Proof.
  intros value req.
  assert (H1 : reachable Full init) by constructor.
  assert (H2 : is_blacklisted req = true) by reflexivity.
  assert (H3 : query_get "name" (req_query req) = Some value) by reflexivity.
  assert (H4 : is_string value = false) by reflexivity.
  assert (H5 : rate_limited Full init morning req = false) by reflexivity.
  assert (H6 : body_parses req = true) by reflexivity.
  repeat (split; [assumption|]).
  exact (non_string_name_is_500 Full init morning req value H1 H2 H3 H4 H5 H6).
Defined.

(** In [src/server.js] the 21st such request of a minute never reaches
    the handler: the limiter answers 429 and nothing is thrown. In both
    files such a request that carries a body that is not JSON does not
    reach the handler either: the 500 it gets is the parser's error, and
    the console holds the parser's stack, not a TypeError. *)
Lemma non_string_name_not_thrown :
  let value := QArr [QStr "John Smith"; QStr "Jane Doe"] in
  let req := get "/blacklisted" [("name", value)] in
  let st := snd (run Full init (burst 20 morning req)) in
  let env := after_burst 20 morning in
  reachable Full st
  /\ is_blacklisted req = true
  /\ query_get "name" (req_query req) = Some value
  /\ is_string value = false
  /\ fst (serve Full st env req)
     = Some (mkResponse 429 (AsJson (JObj
         [("error", JStr "Too many blacklist requests from this IP");
          ("retryAfter", JStr "1 minute")])))
  /\ console (snd (serve Full st env req)) = console st
  /\ is_blacklisted (with_bad_body req) = true
  /\ query_get "name" (req_query (with_bad_body req)) = Some value
  /\ rate_limited Full init morning (with_bad_body req) = false
  /\ serve Full init morning (with_bad_body req)
     = (Some (mkResponse 500 (AsJson (JObj
          [("error", JStr "Internal server error");
           ("message", JStr "Unexpected token b in JSON at position 1")]))),
        console_error "SyntaxError: Unexpected token b in JSON at position 1" init)
  /\ serve Minimal init morning (with_bad_body req)
     = serve Full init morning (with_bad_body req).
Proof.
  intros value req st env. split; [apply run_reachable; constructor|].
  split; [reflexivity|]. split; [reflexivity|]. split; [reflexivity|].
  split; [vm_compute; reflexivity|]. split; [vm_compute; reflexivity|].
  repeat split; reflexivity.
Qed.

(** *** Routes, counters and statuses on concrete requests *)

Lemma status_tells_the_cause_witness :
  let req := get "/blacklisted" [("name", QObj [("first", QStr "John")])] in
  let r := mkResponse 500 (AsJson (JObj
             [("error", JStr "Internal server error");
              ("message", JStr "name.toLowerCase is not a function")])) in
  reachable Full init
  /\ (Full = Minimal \/ mount_matches (Under "/api-docs") (req_path req) = false)
  /\ fst (serve Full init morning req) = Some r
  /\ (status r = 404 ->
      unmatched Full req = true /\ path_decodes req = true
      /\ body_parses req = true /\ rate_limited Full init morning req = false)
  /\ (status r = 500 ->
      body_parses req = false
      \/ (body_parses req = true /\ rate_limited Full init morning req = false
          /\ ((unmatched Full req = true /\ path_decodes req = false)
              \/ (is_blacklisted req = true
                  /\ exists value, query_get "name" (req_query req) = Some value
                                   /\ is_string value = false))))
  /\ (status r = 429 ->
      Full = Full /\ body_parses req = true
      /\ rate_limited Full init morning req = true)
  /\ (status r = 200 ->
      body_parses req = true
      /\ rate_limited Full init morning req = false
      /\ (is_health req = true
          \/ is_documentation req = true
          \/ (is_blacklisted req = true
              /\ forall value, query_get "name" (req_query req) = Some value ->
                               is_string value = true))).
Proof.
  intros req r.
  assert (H1 : reachable Full init) by constructor.
  assert (H2 : Full = Minimal
               \/ mount_matches (Under "/api-docs") (req_path req) = false)
    by (right; reflexivity).
  assert (H3 : fst (serve Full init morning req) = Some r) by reflexivity.
  repeat (split; [assumption|]).
  exact (status_tells_the_cause Full init morning req r H1 H2 H3).
Defined.

Lemma listed_names_are_blacklisted_witness :
  let listing := get "/blacklisted" [] in
  let lookup := get "/blacklisted" [("name", QStr "Emily Davis")] in
  let items := List.map JStr configured_names in
  let st' := snd (serve Full init morning listing) in
  let env' := a_second_later morning in
  reachable Full init
  /\ reachable Full st'
  /\ is_blacklisted listing = true
  /\ fst (serve Full init morning listing)
     = Some (mkResponse 200 (AsJson (JObj
         [("blacklistedNames", JArr items); ("count", JNum 10)])))
  /\ In (JStr "Emily Davis") items
  /\ is_blacklisted lookup = true
  /\ query_get "name" (req_query lookup) = Some (QStr "Emily Davis")
  /\ rate_limited Full st' env' lookup = false
  /\ body_parses lookup = true
  /\ fst (serve Full st' env' lookup)
     = Some (mkResponse 200 (AsJson (JObj
         [("name", JStr "Emily Davis"); ("isBlacklisted", JBool true)]))).
Proof.
  intros listing lookup items st' env'.
  assert (H1 : reachable Full init) by constructor.
  assert (H2 : reachable Full st') by (apply reachable_step; constructor).
  assert (H3 : is_blacklisted listing = true) by reflexivity.
  assert (H4 : fst (serve Full init morning listing)
               = Some (mkResponse 200 (AsJson (JObj
                   [("blacklistedNames", JArr items); ("count", JNum 10)]))))
    by reflexivity.
  assert (H5 : In (JStr "Emily Davis") items) by (cbn; tauto).
  assert (H6 : is_blacklisted lookup = true) by reflexivity.
  assert (H7 : query_get "name" (req_query lookup) = Some (QStr "Emily Davis"))
    by reflexivity.
  assert (H8 : rate_limited Full st' env' lookup = false)
    by (vm_compute; reflexivity).
  assert (H9 : body_parses lookup = true) by reflexivity.
  repeat (split; [assumption|]).
  exact (listed_names_are_blacklisted Full init st' morning env' listing lookup
           items 10 "Emily Davis" H1 H2 H3 H4 H5 H6 H7 H8 H9).
Defined.

Lemma only_name_is_read_witness :
  let req1 := get "/blacklisted" [("name", QStr "Jane Doe")] in
  let req2 :=
    mkRequest GET "/blacklisted"
      [("page", QStr "2"); ("name", QStr "Jane Doe"); ("sort", QStr "asc")]
      (Parsed (JObj [("name", JStr "nobody")])) client in
  same_view req1 req2
  /\ (Full = Minimal \/ mount_matches (Under "/api-docs") (req_path req1) = false)
  /\ serve Full init morning req1 = serve Full init morning req2.
Proof.
  intros req1 req2.
  assert (H1 : same_view req1 req2) by (repeat split; reflexivity).
  assert (H2 : Full = Minimal
               \/ mount_matches (Under "/api-docs") (req_path req1) = false)
    by (right; reflexivity).
  repeat (split; [assumption|]).
  exact (only_name_is_read Full init morning req1 req2 H1 H2).
Defined.


(** Twenty-two lookups of one address within a minute, after a lookup of
    another address and one of its own whose body is not JSON: the last
    of them, with twenty-one before it, is refused. *)
Lemma blacklist_budget_per_window_witness :
  let req := get "/blacklisted" [("name", QStr "Jane Doe")] in
  let other := mkRequest GET "/blacklisted" [] NoBody "198.51.100.9" in
  let trace :=
    (morning, other) :: (morning, with_bad_body req) :: burst 22 morning req in
  let env := after_burst 21 morning in
  let r := Some (mkResponse 429 (AsJson (message blacklistLimiter))) in
  closed_at (now morning) (generalHits init) client
  /\ closed_at (now morning) (blacklistHits init) client
  /\ Forall (fun x => req_ip (snd x) = client ->
                      now morning <= now (fst x) < now morning + 60000) trace
  /\ (length (List.filter (counted_by_general client) trace) <= 100)%nat
  /\ trace !! 23%nat = Some (env, req)
  /\ fst (run Full init trace) !! 23%nat = Some r
  /\ req_ip req = client
  /\ is_blacklisted req = true
  /\ body_parses req = true
  /\ (option_map status r = Some 429
      <-> (20 <= length (List.filter (counted_by_route client)
                           (firstn 23 trace)))%nat).
Proof.
  intros req other trace env r.
  assert (H1 : closed_at (now morning) (generalHits init) client)
    by (intros n reset; cbn [init generalHits]; by rewrite lookup_empty).
  assert (H2 : closed_at (now morning) (blacklistHits init) client)
    by (intros n reset; cbn [init blacklistHits]; by rewrite lookup_empty).
  assert (H3 : Forall (fun x => req_ip (snd x) = client ->
                        now morning <= now (fst x) < now morning + 60000) trace)
    by (repeat (constructor;
                [intros _; vm_compute; split; [discriminate|reflexivity]|]);
        constructor).
  assert (H4 : (length (List.filter (counted_by_general client) trace) <= 100)%nat)
    by (apply Nat.leb_le; vm_compute; reflexivity).
  assert (H5 : trace !! 23%nat = Some (env, req)) by (vm_compute; reflexivity).
  assert (H6 : fst (run Full init trace) !! 23%nat = Some r)
    by (vm_compute; reflexivity).
  assert (H7 : req_ip req = client) by reflexivity.
  assert (H8 : is_blacklisted req = true) by reflexivity.
  assert (H9 : body_parses req = true) by reflexivity.
  repeat (split; [assumption|]).
  exact (blacklist_budget_per_window init client (now morning) trace
           H1 H2 H3 H4 23%nat env req r H5 H6 H7 H8 H9).
Defined.

(** A hundred and one requests of one address within a quarter of an
    hour: the last, with a hundred before it, is refused. *)
Lemma general_budget_per_window_witness :
  let req := get "/health" [] in
  let trace := burst 101 morning req in
  let env := after_burst 100 morning in
  let refusal :=
    Some (mkResponse 429 (AsJson (JObj
      [("error", JStr "Too many requests from this IP");
       ("retryAfter", JStr "15 minutes")]))) in
  closed_at (now morning) (generalHits init) client
  /\ Forall (fun x => req_ip (snd x) = client ->
                      now morning <= now (fst x) < now morning + 900000) trace
  /\ trace !! 100%nat = Some (env, req)
  /\ fst (run Full init trace) !! 100%nat = Some refusal
  /\ req_ip req = client
  /\ body_parses req = true
  /\ ((100 <= length (List.filter (counted_by_general client)
                        (firstn 100 trace)))%nat ->
      refusal = refusal)
  /\ ((length (List.filter (counted_by_general client) (firstn 100 trace)) < 100)%nat ->
      mount_matches (Under "/api-docs") (req_path req) = false ->
      refusal <> refusal).
Proof.
  intros req trace env refusal.
  assert (H1 : closed_at (now morning) (generalHits init) client)
    by (intros n reset; cbn [init generalHits]; by rewrite lookup_empty).
  assert (H2 : Forall (fun x => req_ip (snd x) = client ->
                        now morning <= now (fst x) < now morning + 900000) trace)
    by (repeat (constructor;
                [intros _; vm_compute; split; [discriminate|reflexivity]|]);
        constructor).
  assert (H3 : trace !! 100%nat = Some (env, req)) by (vm_compute; reflexivity).
  assert (H4 : fst (run Full init trace) !! 100%nat = Some refusal)
    by (vm_compute; reflexivity).
  assert (H5 : req_ip req = client) by reflexivity.
  assert (H6 : body_parses req = true) by reflexivity.
  repeat (split; [assumption|]).
  exact (general_budget_per_window init client (now morning) trace
           H1 H2 100%nat env req refusal H3 H4 H5 H6).
Defined.

Lemma allowance_returns_witness :
  let req := get "/blacklisted" [] in
  let trace := burst 30 morning req in
  let t := now (after_burst 30 morning) in
  let env := at_time (t + 900000) 1050500000000 in
  Forall (fun x => now (fst x) <= t) trace
  /\ t + windowMs generalLimiter <= now env
  /\ rate_limited Full (snd (run Full init trace)) env req = false.
Proof.
  intros req trace t env.
  assert (H1 : Forall (fun x => now (fst x) <= t) trace)
    by (repeat (constructor; [vm_compute; discriminate|]); constructor).
  assert (H2 : t + windowMs generalLimiter <= now env) by (vm_compute; discriminate).
  repeat (split; [assumption|]).
  exact (allowance_returns trace t env req H1 H2).
Defined.

Lemma api_docs_json_answer_witness :
  let req := get "/api-docs.json" [] in
  handled_by_get (req_method req) && route_matches "/api-docs.json" (req_path req)
  = true
  /\ body_parses req = true
  /\ (exceeded generalLimiter (generalHits init) (req_ip req) (now morning) = false ->
      fst (serve Full init morning req) = Some (mkResponse 200 (AsJson swaggerSpec)))
  /\ blacklistHits (snd (serve Full init morning req)) = blacklistHits init
  /\ fst (serve Minimal init morning req)
     = Some (mkResponse 404 (AsJson (JObj
         [("error", JStr "Endpoint not found");
          ("availableEndpoints",
           JArr [JStr "GET /health"; JStr "GET /blacklisted";
                 JStr "GET /blacklisted?name=<name>"])]))).
Proof.
  intros req.
  assert (H1 : handled_by_get (req_method req)
               && route_matches "/api-docs.json" (req_path req) = true)
    by reflexivity.
  assert (H2 : body_parses req = true) by reflexivity.
  repeat (split; [assumption|]).
  exact (api_docs_json_answer init morning req H1 H2).
Defined.
